(** * ip-calc: the [Calculator] class of src/calculator.ts

    A shallow embedding of the TypeScript class and the JavaScript
    built-ins it calls, followed by the properties of the specification
    that were checked against it.

    Conventions of the embedding.
    - A JavaScript [number] is [NaN], an infinity or an integer.  Non-integer
      doubles are not represented: an operation whose result would be one
      yields no value, and a method that runs into it ends in
      [Unmodelled].  Integers are kept exact, also beyond 2^53 where a
      double would round: the setters only compare such a value with 0, 32
      or 255 and reject it, so every number they store is NaN or at most
      255.  [-0] is identified with [0] (the program cannot tell them
      apart: it compares, masks, adds and prints them).
    - A JavaScript string is a [string] of code units below 256.
    - A method that reads or writes [this] is a function from the instance
      to a [completion], which keeps the instance as the method left it,
      also when it throws. *)

From Stdlib Require Import ZArith List Ascii String Bool Lia.
Import ListNotations.

Open Scope string_scope.
Open Scope list_scope.
Open Scope Z_scope.

(* ================================================================== *)
(** ** JavaScript numbers and strings *)

Module JS.

Inductive number : Type :=
| NaN
| Infinity (negative : bool)
| Int (z : Z).

(** [ToInt32] and [ToUint32]: NaN and the infinities go to 0, an integer
    wraps modulo 2^32. *)
Definition wrap32 (z : Z) : Z :=
  let u := z mod 2 ^ 32 in
  if u <? 2 ^ 31 then u else u - 2 ^ 32.

Definition ToInt32 (n : number) : Z :=
  match n with
  | Int z => wrap32 z
  | _ => 0
  end.

Definition ToUint32 (n : number) : Z :=
  match n with
  | Int z => z mod 2 ^ 32
  | _ => 0
  end.

(** [a & b], [a | b], [~a], [a << b], [a >> b], [a >>> b]. *)
Definition band (a b : number) : number := Int (Z.land (ToInt32 a) (ToInt32 b)).
Definition bor (a b : number) : number := Int (Z.lor (ToInt32 a) (ToInt32 b)).
Definition bnot (a : number) : number := Int (Z.lnot (ToInt32 a)).
Definition shl (a b : number) : number :=
  Int (wrap32 (Z.shiftl (ToInt32 a) (Z.land (ToUint32 b) 31))).
Definition sar (a b : number) : number :=
  Int (Z.shiftr (ToInt32 a) (Z.land (ToUint32 b) 31)).
Definition ushr (a b : number) : number :=
  Int (Z.shiftr (ToUint32 a) (Z.land (ToUint32 b) 31)).

(** [a < b]; [a > b] is [lt b a].  Any comparison with NaN is false. *)
Definition lt (a b : number) : bool :=
  match a, b with
  | NaN, _ | _, NaN => false
  | Int x, Int y => x <? y
  | Infinity s, Infinity t => s && negb t
  | Infinity s, Int _ => s
  | Int _, Infinity t => negb t
  end.

Definition gt (a b : number) : bool := lt b a.

(** [a === b] on numbers. *)
Definition strictEq (a b : number) : bool :=
  match a, b with
  | Int x, Int y => x =? y
  | Infinity s, Infinity t => Bool.eqb s t
  | _, _ => false
  end.

(** [ToBoolean]: 0 and NaN are falsy. *)
Definition truthy (a : number) : bool :=
  match a with
  | NaN => false
  | Int z => negb (z =? 0)
  | Infinity _ => true
  end.

Definition neg (a : number) : number :=
  match a with
  | NaN => NaN
  | Infinity s => Infinity (negb s)
  | Int z => Int (- z)
  end.

Definition add (a b : number) : number :=
  match a, b with
  | NaN, _ | _, NaN => NaN
  | Int x, Int y => Int (x + y)
  | Infinity s, Infinity t => if Bool.eqb s t then Infinity s else NaN
  | Infinity s, Int _ => Infinity s
  | Int _, Infinity t => Infinity t
  end.

Definition sub (a b : number) : number := add a (neg b).

(** [2 ** e].  A negative integer exponent gives a fraction, which has no
    representation here. *)
Definition pow2 (e : number) : option number :=
  match e with
  | NaN => Some NaN
  | Infinity false => Some (Infinity false)
  | Infinity true => Some (Int 0)
  | Int z => if 0 <=? z then Some (Int (2 ^ z)) else None
  end.

(** *** Characters *)

Definition code (c : ascii) : Z := Z.of_N (N_of_ascii c).

(** White space and line terminators that [Number] and [parseInt] trim:
    TAB, LF, VT, FF, CR, SP and NBSP. *)
Definition isWhiteSpace (c : ascii) : bool :=
  let n := code c in
  ((9 <=? n) && (n <=? 13)) || (n =? 32) || (n =? 160).

(** Line terminators, which [.] in a regular expression does not match. *)
Definition isLineTerminator (c : ascii) : bool :=
  let n := code c in (n =? 10) || (n =? 13).

(** The value of a digit in radix up to 36, letters in either case. *)
Definition digitValue (c : ascii) : option Z :=
  let n := code c in
  if (48 <=? n) && (n <=? 57) then Some (n - 48)
  else if (97 <=? n) && (n <=? 122) then Some (n - 87)
  else if (65 <=? n) && (n <=? 90) then Some (n - 55)
  else None.

Definition isDigitIn (radix : Z) (c : ascii) : bool :=
  match digitValue c with
  | Some d => d <? radix
  | None => false
  end.

Definition digitChar (d : Z) : ascii :=
  ascii_of_N (Z.to_N (if d <? 10 then d + 48 else d + 87)).

(** *** Number to string *)

(** Digits of a non-negative integer, most significant first; [fuel]
    bounds the number of digits. *)
Fixpoint natDigits (fuel : nat) (radix n : Z) (acc : string) : string :=
  match fuel with
  | O => acc
  | S f =>
      let acc' := String (digitChar (n mod radix)) acc in
      if n / radix =? 0 then acc' else natDigits f radix (n / radix) acc'
  end.

Definition digitsOf (radix n : Z) : string :=
  natDigits (S (Z.to_nat (Z.log2 n))) radix n "".

(** [n.toString(radix)], for a radix from 2 to 36. *)
Definition toString (radix : Z) (n : number) : string :=
  match n with
  | NaN => "NaN"
  | Infinity false => "Infinity"
  | Infinity true => "-Infinity"
  | Int z => if z <? 0 then String "-" (digitsOf radix (- z)) else digitsOf radix z
  end.

(** [s.padStart(width, "0")]. *)
Definition padStart0 (width : nat) (s : string) : string :=
  string_of_list_ascii (repeat "0"%char (width - String.length s)) ++ s.

(** [xs.join(sep)] on an array of numbers. *)
Definition join (sep : string) (xs : list number) : string :=
  String.concat sep (map (toString 10) xs).

(** *** String to number *)

(** [s.split(".")] for a one-character separator: never empty, the empty
    string gives one empty segment. *)
Fixpoint split (sep : ascii) (s : string) : list string :=
  match s with
  | EmptyString => [EmptyString]
  | String c rest =>
      if Ascii.eqb c sep then EmptyString :: split sep rest
      else match split sep rest with
           | seg :: segs => String c seg :: segs
           | [] => [String c EmptyString]
           end
  end.

Fixpoint dropWhile {A : Type} (p : A -> bool) (l : list A) : list A :=
  match l with
  | [] => []
  | x :: l' => if p x then dropWhile p l' else l
  end.

Fixpoint takeWhile {A : Type} (p : A -> bool) (l : list A) : list A :=
  match l with
  | [] => []
  | x :: l' => if p x then x :: takeWhile p l' else []
  end.

Definition trimStart (l : list ascii) : list ascii := dropWhile isWhiteSpace l.
Definition trim (l : list ascii) : list ascii :=
  rev (dropWhile isWhiteSpace (rev (trimStart l))).

(** The value of a digit sequence, read left to right. *)
Definition digitsValue (radix : Z) (ds : list ascii) : Z :=
  fold_left (fun acc c => acc * radix + match digitValue c with Some d => d | None => 0 end) ds 0.

(** A non-empty run of digits of the radix, or nothing. *)
Definition allDigits (radix : Z) (ds : list ascii) : bool :=
  negb (Nat.eqb (List.length ds) 0) && forallb (isDigitIn radix) ds.

Definition isChar (x : ascii) (c : ascii) : bool := Ascii.eqb c x.

(** A leading sign: the remaining characters and whether it was [-]. *)
Definition stripSign (l : list ascii) : list ascii * bool :=
  match l with
  | c :: l' =>
      if isChar "-" c then (l', true)
      else if isChar "+" c then (l', false)
      else (l, false)
  | [] => (l, false)
  end.

Definition signed (negative : bool) (z : Z) : Z := if negative then - z else z.

(** The digits after [0x], [0o] or [0b]. *)
Definition radixLiteral (radix : Z) (ds : list ascii) : number :=
  if allDigits radix ds then Int (digitsValue radix ds) else NaN.

(** Decimal digits [mant] followed by [e] and the characters [ex]. *)
Definition exponentLiteral (negative : bool) (mant ex : list ascii) : option number :=
  let (exd, eneg) := stripSign ex in
  if allDigits 10 exd then
    let m := digitsValue 10 mant in
    let k := digitsValue 10 exd in
    if eneg then
      if m mod 10 ^ k =? 0 then Some (Int (signed negative (m / 10 ^ k))) else None
    else Some (Int (signed negative (m * 10 ^ k)))
  else Some NaN.

(** An optionally signed [Infinity] or run of decimal digits with an
    optional exponent. *)
Definition decimalLiteral (l : list ascii) : option number :=
  let (body, negative) := stripSign l in
  if String.eqb (string_of_list_ascii body) "Infinity" then Some (Infinity negative)
  else
    let mant := takeWhile (isDigitIn 10) body in
    match mant, dropWhile (isDigitIn 10) body with
    | [], _ => Some NaN
    | _, [] => Some (Int (signed negative (digitsValue 10 mant)))
    | _, e :: ex =>
        if isChar "e" e || isChar "E" e then exponentLiteral negative mant ex
        else Some NaN
    end.

(** [Number(s)] for the literals without a decimal point, the only ones a
    segment of [split "."] can hold: surrounding white space, then nothing
    (0), a hexadecimal, octal or binary literal, or an optionally signed
    [Infinity] or decimal integer with an optional exponent; anything else
    is NaN.  There is no value when the literal denotes a fraction (a
    negative exponent that does not divide the digits) or holds a point. *)
Definition Number (s : string) : option number :=
  let l := trim (list_ascii_of_string s) in
  if existsb (isChar ".") l then None
  else match l with
       | [] => Some (Int 0)
       | z :: p :: ds =>
           if isChar "0" z && (isChar "x" p || isChar "X" p) then Some (radixLiteral 16 ds)
           else if isChar "0" z && (isChar "o" p || isChar "O" p) then Some (radixLiteral 8 ds)
           else if isChar "0" z && (isChar "b" p || isChar "B" p) then Some (radixLiteral 2 ds)
           else decimalLiteral l
       | _ => decimalLiteral l
       end.

Definition strip0x (l : list ascii) : list ascii :=
  match l with
  | z :: p :: l' => if isChar "0" z && (isChar "x" p || isChar "X" p) then l' else l
  | _ => l
  end.

(** [parseInt(s, radix)] with an explicit radix from 2 to 36: leading white
    space, a sign, [0x] when the radix is 16, then the longest run of
    digits; NaN when that run is empty. *)
Definition parseInt (s : string) (radix : Z) : number :=
  let (signless, negative) := stripSign (trimStart (list_ascii_of_string s)) in
  let body := if radix =? 16 then strip0x signless else signless in
  match takeWhile (isDigitIn radix) body with
  | [] => NaN
  | ds => Int (signed negative (digitsValue radix ds))
  end.

(** [/^\d+$/.test(s)]. *)
Definition isDigitString (s : string) : bool := allDigits 10 (list_ascii_of_string s).

(** [s.match(/.{1,2}/g) || []]: from the left, greedy groups of one or two
    characters other than line terminators. *)
Fixpoint chunks (l : list ascii) : list string :=
  match l with
  | [] => []
  | a :: l1 =>
      if isLineTerminator a then chunks l1
      else match l1 with
           | [] => [String a ""]
           | b :: l2 =>
               if isLineTerminator b then String a "" :: chunks l2
               else String a (String b "") :: chunks l2
           end
  end.

End JS.

Import JS.

(* ================================================================== *)
(** ** The Calculator class *)

(** Modelled from the spec: src/config.ts, which exports the three error
    messages, is not among the sources.  The messages are kept as names;
    the specification calls them InvalidAddress, InvalidMask and
    InvalidAddressOrMask. *)
Inductive message : Type := invalidIP | invalidMask | invalidIPorMask.

(** The instance: the two private fields and the eleven public ones. *)
Record Calculator : Type := mkCalculator {
  ipOctets : list number;
  maskBits : number;
  ip : string;
  network : string;
  netmask : string;
  broadcast : string;
  wildcard : string;
  hostMin : string;
  hostMax : string;
  ipv4Class : string;
  maxHosts : string;
  maxNetworks : string;
  mask : string
}.

(** The field initialisers of the class. *)
Definition blank : Calculator :=
  mkCalculator [] (Int 0) "" "" "" "" "" "" "" "" "" "" "".

Definition with_ipOctets (v : list number) (c : Calculator) : Calculator :=
  mkCalculator v (maskBits c) (ip c) (network c) (netmask c) (broadcast c)
    (wildcard c) (hostMin c) (hostMax c) (ipv4Class c) (maxHosts c)
    (maxNetworks c) (mask c).

Definition with_maskBits (v : number) (c : Calculator) : Calculator :=
  mkCalculator (ipOctets c) v (ip c) (network c) (netmask c) (broadcast c)
    (wildcard c) (hostMin c) (hostMax c) (ipv4Class c) (maxHosts c)
    (maxNetworks c) (mask c).

(** How a method call ends: it returns, it throws, or it computes with a
    value the embedding does not represent. *)
Inductive completion (A : Type) : Type :=
| Normal (a : A) (this : Calculator)
| Throw (m : message) (this : Calculator)
| Unmodelled.

Arguments Normal {A} a this.
Arguments Throw {A} m this.
Arguments Unmodelled {A}.

Definition method (A : Type) : Type := Calculator -> completion A.

Definition ret {A : Type} (a : A) : method A := fun this => Normal a this.

Definition bind {A B : Type} (m : method A) (k : A -> method B) : method B :=
  fun this =>
    match m this with
    | Normal a this' => k a this'
    | Throw e this' => Throw e this'
    | Unmodelled => Unmodelled
    end.

Definition throw {A : Type} (e : message) : method A := fun this => Throw e this.

Definition value {A : Type} (o : option A) : method A :=
  fun this => match o with Some a => Normal a this | None => Unmodelled end.

Definition read {A : Type} (field : Calculator -> A) : method A :=
  fun this => Normal (field this) this.

Definition write (update : Calculator -> Calculator) : method unit :=
  fun this => Normal tt (update this).

Notation "x <- m ;; k" := (bind m (fun x => k))
  (at level 61, m at next level, right associativity).
Notation "m ;; k" := (bind m (fun _ => k))
  (at level 61, right associativity).

(** [a[i]] read as a number: a missing element is [undefined], which the
    bitwise operators convert like NaN. *)
Definition at_ (a : list number) (i : nat) : number := nth i a NaN.

Fixpoint mapM {A B : Type} (f : A -> option B) (l : list A) : option (list B) :=
  match l with
  | [] => Some []
  | x :: l' =>
      match f x, mapM f l' with
      | Some y, Some ys => Some (y :: ys)
      | _, _ => None
      end
  end.

Definition ipToOctetArray (ip : string) : option (list number) :=
  mapM Number (split "." ip).

Definition validateIp (ip : string) (msg : message) : method (list number) :=
  ipOctets <- value (ipToOctetArray ip) ;;
  if negb (Nat.eqb (List.length ipOctets) 4) then throw msg
  else if existsb (fun octet => lt octet (Int 0) || gt octet (Int 255)) ipOctets
       then throw msg
       else ret ipOctets.

Definition validateMask (mask : number) (msg : message) : method number :=
  if lt mask (Int 0) || gt mask (Int 32) then throw msg else ret mask.

Definition setIp (ip : string) : method unit :=
  octets <- validateIp ip invalidIP ;;
  write (with_ipOctets octets).

(** The inner loop of [getMaskBitsFromSubnetMask]:
    [while (octet & 0x80) { bitCount++; octet <<= 1 }]. *)
Fixpoint countWhile (fuel : nat) (octet bitCount : number) : option number :=
  match fuel with
  | O => None
  | S f =>
      if truthy (band octet (Int 128))
      then countWhile f (shl octet (Int 1)) (add bitCount (Int 1))
      else Some bitCount
  end.

(** The body of [for (let octet of netmask)].  The fuel is the width of
    the shifted value; [countWhile_total] shows the loop stops earlier. *)
Fixpoint forOctets (netmask : list number) : method unit :=
  match netmask with
  | [] => ret tt
  | octet :: rest =>
      bitCount <- value (countWhile 32 octet (Int 0)) ;;
      bits <- read maskBits ;;
      write (with_maskBits (add bits bitCount)) ;;
      forOctets rest
  end.

Definition getMaskBitsFromSubnetMask (netmask : list number) : method number :=
  bits <- read maskBits ;;
  (if negb (truthy bits)
   then write (with_maskBits (Int 0)) ;; forOctets netmask
   else ret tt) ;;
  read maskBits.

(** The argument of [setMask]: [number | string]. *)
Inductive maskArg : Type :=
| MaskNumber (n : number)
| MaskString (s : string).

Definition setMask (mask : maskArg) : method unit :=
  maskNum <- match mask with
             | MaskNumber n => ret n
             | MaskString s =>
                 if isDigitString s then ret (parseInt s 10)
                 else octets <- validateIp s invalidMask ;;
                      getMaskBitsFromSubnetMask octets
             end ;;
  checked <- validateMask maskNum invalidMask ;;
  write (with_maskBits checked).

Definition getNetworkMask (prefixLength : number) : list number :=
  let prefix := ushr prefixLength (Int 0) in
  let networkMask := shl (Int 4294967295) (sub (Int 32) prefix) in
  [ band (sar networkMask (Int 24)) (Int 255);
    band (sar networkMask (Int 16)) (Int 255);
    band (sar networkMask (Int 8)) (Int 255);
    band networkMask (Int 255) ].

Definition getNetwork (ip netmask : list number) : list number :=
  [ band (at_ ip 0) (at_ netmask 0);
    band (at_ ip 1) (at_ netmask 1);
    band (at_ ip 2) (at_ netmask 2);
    band (at_ ip 3) (at_ netmask 3) ].

Definition getInvertedMask (netmask : list number) : list number :=
  [ band (bnot (at_ netmask 0)) (Int 255);
    band (bnot (at_ netmask 1)) (Int 255);
    band (bnot (at_ netmask 2)) (Int 255);
    band (bnot (at_ netmask 3)) (Int 255) ].

Definition getBroadcast (network invertedMask : list number) : list number :=
  [ bor (at_ network 0) (at_ invertedMask 0);
    bor (at_ network 1) (at_ invertedMask 1);
    bor (at_ network 2) (at_ invertedMask 2);
    bor (at_ network 3) (at_ invertedMask 3) ].

(** [naa[3] = naa[3] + 1] on a copy of the array.  An array shorter than
    four elements would be extended with holes, which are not represented;
    [getNetwork] never builds one. *)
Definition getHostMin (network : list number) : option (list number) :=
  match network with
  | n0 :: n1 :: n2 :: n3 :: rest => Some (n0 :: n1 :: n2 :: add n3 (Int 1) :: rest)
  | _ => None
  end.

Definition convertToHexa (ip : string) : method string :=
  ipParts <- validateIp ip invalidIP ;;
  ret (String.concat "" (map (fun part => padStart0 2 (toString 16 part)) ipParts)).

Definition convertToBinary (ip : string) : method string :=
  ipParts <- validateIp ip invalidIP ;;
  ret (String.concat "." (map (fun octet => padStart0 8 (toString 2 octet)) ipParts)).

Definition subtractFromHex (hexDigit : string) : string :=
  let numVal := sub (parseInt hexDigit 16) (Int 1) in
  if lt numVal (Int 0) then "ff" else padStart0 2 (toString 16 numVal).

Definition hexaToIpArray : string -> list number := fun number =>
  let hexaArray := chunks (list_ascii_of_string number) in
  map (fun hex => parseInt hex 16) hexaArray.

Definition getHostMax (broadcast : list number) : method (list number) :=
  bcaConverted <- convertToHexa (join "." broadcast) ;;
  let bcaHostMax := subtractFromHex bcaConverted in
  ret (hexaToIpArray bcaHostMax).

Definition getIpV4Class (ip : list number) : string :=
  let firstOctet := at_ ip 0 in
  if strictEq (band firstOctet (Int 128)) (Int 0) then "A"
  else if strictEq (band firstOctet (Int 64)) (Int 0) then "B"
  else if strictEq (band firstOctet (Int 32)) (Int 0) then "C"
  else if strictEq (band firstOctet (Int 16)) (Int 0) then "D"
  else "E".

Definition getHostNumber (netmask : list number) : method number :=
  maskBits <- getMaskBitsFromSubnetMask netmask ;;
  power <- value (pow2 (sub (Int 32) maskBits)) ;;
  ret (sub power (Int 2)).

Definition getNetworkNumber (netmask : list number) : method number :=
  maskBits <- getMaskBitsFromSubnetMask netmask ;;
  value (pow2 maskBits).

Definition calculate : method unit :=
  ip <- read ipOctets ;;
  mask <- read maskBits ;;
  if Nat.eqb (List.length ip) 0 || strictEq mask (Int 0) then throw invalidIPorMask
  else
    let netmask := getNetworkMask mask in
    let wildcard := getInvertedMask netmask in
    let network := getNetwork ip netmask in
    let broadcast := getBroadcast network wildcard in
    hostMin <- value (getHostMin network) ;;
    hostMax <- getHostMax broadcast ;;
    let ipv4Class := getIpV4Class ip in
    numHosts <- getHostNumber netmask ;;
    numNetworks <- getNetworkNumber netmask ;;
    write (fun this =>
      mkCalculator (ipOctets this) (maskBits this)
        (join "." ip)
        (join "." network)
        (join "." netmask)
        (join "." broadcast)
        (join "." wildcard)
        (join "." hostMin)
        (join "." hostMax)
        ipv4Class
        (toString 10 numHosts)
        (toString 10 numNetworks)
        (toString 10 mask)).

(** [Partial<CalculatorOptions>], and the constructor: the defaults, then
    [setIp] and [setMask] on the freshly initialised instance. *)
Record CalculatorOptions : Type := mkOptions {
  opt_ip : option string;
  opt_mask : option maskArg
}.

Definition new (options : option CalculatorOptions) : completion unit :=
  let ip := match options with
            | Some (mkOptions (Some s) _) => s
            | _ => "127.0.0.1"
            end in
  let mask := match options with
              | Some (mkOptions _ (Some m)) => m
              | _ => MaskNumber (Int 32)
              end in
  (setIp ip ;; setMask mask) blank.

(** The instances a caller can hold: built by the constructor and then
    driven through calls that returned. *)
Inductive reachable : Calculator -> Prop :=
| reach_new options c :
    new options = Normal tt c -> reachable c
| reach_setIp c ip c' :
    reachable c -> setIp ip c = Normal tt c' -> reachable c'
| reach_setMask c mask c' :
    reachable c -> setMask mask c = Normal tt c' -> reachable c'
| reach_calculate c c' :
    reachable c -> calculate c = Normal tt c' -> reachable c'.

(** *** The scenarios of the test suite and of the README *)

Definition run (ip : string) (mask : maskArg) : completion unit :=
  match new (Some (mkOptions (Some ip) (Some mask))) with
  | Normal _ c => calculate c
  | other => other
  end.

Definition fields (r : completion unit) : list string :=
  match r with
  | Normal _ c => [ip c; network c; netmask c; broadcast c; wildcard c; hostMin c;
                   hostMax c; ipv4Class c; maxHosts c; maxNetworks c; mask c]
  | _ => []
  end.


(* ================================================================== *)
(** ** The specification's rules, as the specification words them *)

(** The leading one-bits of an octet, counted from bit 7 down to bit 0 and
    stopping at the first zero bit. *)
Fixpoint leadingOnesFrom (n : nat) (octet : Z) : Z :=
  match n with
  | O => 0
  | S i => if Z.testbit octet (Z.of_nat i) then 1 + leadingOnesFrom i octet else 0
  end.

Definition leadingOnes (octet : Z) : Z := leadingOnesFrom 8 octet.

(** The prefix length of a dotted mask: the sum of the counts of its octets. *)
Definition specPrefix (octets : list Z) : Z :=
  fold_right (fun octet total => leadingOnes octet + total) 0 octets.

(** The maximum host address as the specification describes it: the last
    byte of the broadcast address is decremented and wraps to 255, the
    preceding bytes are never touched. *)
Definition specHostMax (broadcast : list Z) : list Z :=
  match broadcast with
  | [b0; b1; b2; b3] => [b0; b1; b2; if b3 =? 0 then 255 else b3 - 1]
  | _ => broadcast
  end.

(* ================================================================== *)
(** ** Predicates, closed forms and checks used in the proofs *)

(** What the range test of [validateIp] lets through, and what the one of
    [validateMask] lets through. *)
Definition okOctet (n : number) : Prop :=
  n = NaN \/ exists z, n = Int z /\ 0 <= z <= 255.

Definition okPrefix (n : number) : Prop :=
  n = NaN \/ exists z, n = Int z /\ 0 <= z <= 32.

(** What holds of every instance a caller can hold. *)
Definition invariant (c : Calculator) : Prop :=
  List.length (ipOctets c) = 4%nat /\ Forall okOctet (ipOctets c) /\ okPrefix (maskBits c).

Definition isByte (n : number) : Prop := exists z, n = Int z /\ 0 <= z <= 255.

(** The callback of [convertToHexa], and [getHostMax] once the validation
    inside [convertToHexa] has passed. *)
Definition hex2 (part : number) : string := padStart0 2 (toString 16 part).

Definition hostMaxOf (broadcast : list number) : list number :=
  hexaToIpArray (subtractFromHex (String.concat "" (map hex2 broadcast))).

(** The instance [calculate] leaves behind when it returns: [ip] and [mask]
    are the stored address and prefix on entry, [bits] the prefix that
    [getMaskBitsFromSubnetMask] reports. *)
Definition calculated (ip : list number) (mask : number) (bits : Z) : Calculator :=
  let netmask := getNetworkMask mask in
  let wildcard := getInvertedMask netmask in
  let network := getNetwork ip netmask in
  let broadcast := getBroadcast network wildcard in
  mkCalculator ip (Int bits)
    (join "." ip)
    (join "." network)
    (join "." netmask)
    (join "." broadcast)
    (join "." wildcard)
    (join "." [at_ network 0; at_ network 1; at_ network 2; add (at_ network 3) (Int 1)])
    (join "." (hostMaxOf broadcast))
    (getIpV4Class ip)
    (toString 10 (Int (2 ^ (32 - bits) - 2)))
    (toString 10 (Int (2 ^ bits)))
    (toString 10 mask).

(** Two instances to run the methods on: the one [new Calculator()] builds,
    and 192.168.1.1/24. *)
Definition defaultInstance : Calculator :=
  with_maskBits (Int 32) (with_ipOctets [Int 127; Int 0; Int 0; Int 1] blank).

Definition sample : Calculator :=
  with_maskBits (Int 24) (with_ipOctets [Int 192; Int 168; Int 1; Int 1] blank).

(** Facts about single octets, digits and prefix lengths are checked by
    running the code on each of them. *)
Definition bytes : list Z := map Z.of_nat (seq 0 256).

Fixpoint noDot (s : string) : bool :=
  match s with
  | EmptyString => true
  | String c rest => negb (Ascii.eqb c ".") && noDot rest
  end.

Definition decimalRoundTrips (z : Z) : bool :=
  noDot (toString 10 (Int z)) &&
  match Number (toString 10 (Int z)) with
  | Some (Int y) => y =? z
  | _ => false
  end.

Definition hexRoundTrips (z : Z) : bool :=
  String.eqb (hex2 (Int z)) (String (digitChar (z / 16)) (String (digitChar (z mod 16)) "")) &&
  match parseInt (hex2 (Int z)) 16 with
  | Int y => y =? z
  | _ => false
  end.

Definition hexDigitOk (z : Z) : bool :=
  let c := digitChar (z mod 16) in
  match digitValue c with Some d => d =? z mod 16 | None => false end &&
  negb (isWhiteSpace c) && negb (isLineTerminator c) &&
  negb (isChar "-" c) && negb (isChar "+" c) && negb (isChar "x" c) && negb (isChar "X" c).

Definition countsLeadingOnes (z : Z) : bool :=
  match countWhile 32 (Int z) (Int 0) with
  | Some (Int n) => n =? leadingOnes z
  | _ => false
  end.

Definition netmaskBitsOk (p : Z) : bool :=
  match getNetworkMask (Int p) with
  | [Int m0; Int m1; Int m2; Int m3] =>
      forallb (fun m => (0 <=? m) && (m <=? 255)) [m0; m1; m2; m3] &&
      forallb (fun i => Bool.eqb (Z.testbit (m0 * 2 ^ 24 + m1 * 2 ^ 16 + m2 * 2 ^ 8 + m3) i)
                                 (32 - p <=? i))
              (map Z.of_nat (seq 0 32))
  | _ => false
  end.


(* ================================================================== *)
(** ** The command-line examples *)

(** [!s] for [s : string | undefined]: a missing argument or an empty one. *)
Definition missing (s : option string) : bool :=
  match s with
  | None => true
  | Some text => String.eqb text ""
  end.

(** How a run of the first example ends: the exit status and the lines
    written to standard output.  What goes to the error stream is not
    represented. *)
Inductive exited : Type :=
| Exit (status : Z) (stdout : list string)
| ExitUnmodelled.

(** The ten [console.log] lines of the first example. *)
Definition fieldLines (calculator : Calculator) : list string :=
  [ ("IP: " ++ ip calculator)%string;
    ("Network: " ++ network calculator)%string;
    ("Netmask: " ++ netmask calculator)%string;
    ("Broadcast: " ++ broadcast calculator)%string;
    ("Wildcard: " ++ wildcard calculator)%string;
    ("HostMin: " ++ hostMin calculator)%string;
    ("HostMax: " ++ hostMax calculator)%string;
    ("IPv4 Class: " ++ ipv4Class calculator)%string;
    ("Max Hosts: " ++ maxHosts calculator)%string;
    ("Max Networks: " ++ maxNetworks calculator)%string ].

(** The first command-line example: [new Calculator({ ip, mask })], then
    [calculate()], then one line per field. *)
Definition cliExample1 (args : list string) : exited :=
  let ipArg := nth_error args 0 in
  let maskArg := nth_error args 1 in
  if missing ipArg || missing maskArg then Exit 1 []
  else
    match new (Some (mkOptions ipArg (option_map MaskString maskArg))) with
    | Normal _ created =>
        match calculate created with
        | Normal _ calculator =>
            Exit 0 (fieldLines calculator)
        | Throw _ _ => Exit 1 []
        | Unmodelled => ExitUnmodelled
        end
    | Throw _ _ => Exit 1 []
    | Unmodelled => ExitUnmodelled
    end.

(** How a run of the second example ends: the exit status and the instance
    handed to [console.log], whose rendering is not represented. *)
Inductive logged : Type :=
| Logged (status : Z) (shown : option Calculator)
| LoggedUnmodelled.

(** The second command-line example:
    [Calculator().setIp(ip).setMask(mask).calculate()] on the instance the
    factory of index.ts builds with no options. *)
Definition cliExample2 (args : list string) : logged :=
  let ipArg := nth_error args 0 in
  let maskArg := nth_error args 1 in
  if missing ipArg || missing maskArg then Logged 1 None
  else
    match ipArg, maskArg, new None with
    | Some ipText, Some maskText, Normal _ created =>
        match (setIp ipText ;; setMask (MaskString maskText) ;; calculate) created with
        | Normal _ calculator => Logged 0 (Some calculator)
        | Throw _ _ => Logged 1 None
        | Unmodelled => LoggedUnmodelled
        end
    | _, _, Unmodelled => LoggedUnmodelled
    | _, _, _ => Logged 1 None
    end.

(* ================================================================== *)
(** ** Vocabulary of the further properties *)

(** The class letter by the range of the first octet. *)
Definition classOf (a : Z) : string :=
  if a <=? 127 then "A"
  else if a <=? 191 then "B"
  else if a <=? 223 then "C"
  else if a <=? 239 then "D"
  else "E".

(** An octet as eight binary digits, most significant bit first. *)
Definition bitChar (b : bool) : ascii := if b then "1"%char else "0"%char.

Definition binary8 (z : Z) : string :=
  String (bitChar (Z.testbit z 7)) (String (bitChar (Z.testbit z 6))
  (String (bitChar (Z.testbit z 5)) (String (bitChar (Z.testbit z 4))
  (String (bitChar (Z.testbit z 3)) (String (bitChar (Z.testbit z 2))
  (String (bitChar (Z.testbit z 1)) (String (bitChar (Z.testbit z 0)) ""))))))).


(** A string that is four octets in dotted decimal and that [setIp] takes,
    on any instance, storing those octets. *)
Definition accepted (s : string) : Prop :=
  exists o0 o1 o2 o3,
    (0 <= o0 <= 255 /\ 0 <= o1 <= 255 /\ 0 <= o2 <= 255 /\ 0 <= o3 <= 255)
    /\ s = join "." [Int o0; Int o1; Int o2; Int o3]
    /\ forall this, setIp s this = Normal tt (with_ipOctets [Int o0; Int o1; Int o2; Int o3] this).

(** Checks run on every digit, octet, pair of octets and prefix. *)
Definition digitCharOk (d : Z) : bool :=
  match digitValue (digitChar d) with
  | Some v => v =? d
  | None => false
  end.

Definition isDigitChar (c : ascii) : bool :=
  match digitValue c with Some _ => true | None => false end.

Definition digitStep (radix : Z) (acc : Z) (c : ascii) : Z :=
  acc * radix + match digitValue c with Some d => d | None => 0 end.

Definition octetPairOk (a m : Z) : bool :=
  let n := Z.land a m in
  let w := 255 - m in
  (Z.land (Z.lnot m) 255 =? w) && (Z.lor n w =? n + w) && (n <=? a) && (a <=? n + w)
  && (n <=? m) && (n + w <=? 255) && (Z.land (n + w) m =? n).

Definition classOk (a : Z) : bool := String.eqb (getIpV4Class [Int a]) (classOf a).

Definition lastOctetEven (p : Z) : bool :=
  match getNetworkMask (Int p) with
  | [_; _; _; Int m3] => m3 <=? 254
  | _ => false
  end.

Definition binaryOk (z : Z) : bool :=
  String.eqb (padStart0 8 (toString 2 (Int z))) (binary8 z).

(* ================================================================== *)
(** ** The code on concrete inputs *)

Example Number_samples :
  map Number ["192"; " 7 "; ""; "0x1f"; "1e2"; "-1"; "a"; "12a"; "Infinity"; "5e-1"]
  = [Some (Int 192); Some (Int 7); Some (Int 0); Some (Int 31); Some (Int 100);
     Some (Int (-1)); Some NaN; Some NaN; Some (Infinity false); None].
Proof. vm_compute. reflexivity. Qed.

Example toString_samples :
  (toString 10 (Int 0), toString 10 (Int 256), toString 16 (Int 65534),
   toString 16 (Int 10), padStart0 2 (toString 16 (Int 10)), toString 10 (Int (-12)))
  = ("0", "256", "fffe", "a", "0a", "-12").
Proof. vm_compute. reflexivity. Qed.

Example split_samples :
  (split "." "a.b.c.d", split "." "", split "." "1..2.", map (fun s => parseInt s 16) (chunks (list_ascii_of_string "a00fffe")))
  = (["a"; "b"; "c"; "d"], [""], ["1"; ""; "2"; ""], [Int 160; Int 15; Int 255; Int 14]).
Proof. vm_compute. reflexivity. Qed.

Example scenario_192_168_1_1 :
  fields (run "192.168.1.1" (MaskNumber (Int 24)))
  = ["192.168.1.1"; "192.168.1.0"; "255.255.255.0"; "192.168.1.255"; "0.0.0.255";
     "192.168.1.1"; "192.168.1.254"; "C"; "254"; "16777216"; "24"].
Proof. vm_compute. reflexivity. Qed.

(** The second scenario of the README, as the code computes it. *)
Example scenario_10_0_0_129 :
  fields (run "10.0.0.129" (MaskNumber (Int 16)))
  = ["10.0.0.129"; "10.0.0.0"; "255.255.0.0"; "10.0.255.255"; "0.0.255.255";
     "10.0.0.1"; "160.15.255.14"; "A"; "65534"; "65536"; "16"].
Proof. vm_compute. reflexivity. Qed.

(** A dotted mask on an instance with no prefix stored: the octets are
    counted one by one, 255.0.255.0 gives 16. *)
Example dotted_mask_without_prefix :
  map (fun s => setMask (MaskString s) (with_maskBits (Int 0) sample))
      ["255.255.0.0"; "255.0.255.0"; "255.255.255.255"; "255.255.255.256"]
  = [Normal tt (with_maskBits (Int 16) sample); Normal tt (with_maskBits (Int 16) sample);
     Normal tt (with_maskBits (Int 32) sample); Throw invalidMask (with_maskBits (Int 0) sample)].
Proof. vm_compute. reflexivity. Qed.

Example new_default : new None = Normal tt defaultInstance.
Proof. reflexivity. Qed.

Example setters_reject :
  (setIp "192.168.1.300" sample, setIp "192.168.1.300.1" sample,
   setMask (MaskNumber (Int (-1))) sample, setMask (MaskString "33") sample)
  = (Throw invalidIP sample, Throw invalidIP sample,
     Throw invalidMask sample, Throw invalidMask sample).
Proof. vm_compute. reflexivity. Qed.


(** The first command-line example on a prefix, on a missing mask and on a
    prefix out of range. *)
Example cli_samples :
  (cliExample1 ["192.168.1.1"; "24"], cliExample1 ["192.168.1.1"], cliExample1 ["192.168.1.1"; "33"])
  = (Exit 0 ["IP: 192.168.1.1"; "Network: 192.168.1.0"; "Netmask: 255.255.255.0";
             "Broadcast: 192.168.1.255"; "Wildcard: 0.0.0.255"; "HostMin: 192.168.1.1";
             "HostMax: 192.168.1.254"; "IPv4 Class: C"; "Max Hosts: 254";
             "Max Networks: 16777216"],
     Exit 1 [], Exit 1 []).
Proof. vm_compute. reflexivity. Qed.

(** [new Calculator().setMask(NaN)], then [calculate()] twice: the mask
    field and the stored prefix after each call. *)
Example calculate_twice_NaN_prefix :
  match (setMask (MaskNumber NaN) ;; calculate) defaultInstance with
  | Normal _ first =>
      match calculate first with
      | Normal _ second => Some (mask first, maskBits first, mask second, maskBits second)
      | _ => None
      end
  | _ => None
  end = Some ("NaN", Int 32, "32", Int 32).
Proof. vm_compute. reflexivity. Qed.

(* ================================================================== *)
(** ** Tactics *)

(** Linear arithmetic with division and remainder by constants. *)
Ltac dlia := Z.to_euclidean_division_equations; lia.

(** Settle the comparisons [x <? y] of the goal that the context refutes. *)
Ltac refute_ltb :=
  repeat match goal with
  | |- context [?x <? ?y] => destruct (Z.ltb_spec x y); [lia |]
  end.

(* ================================================================== *)
(** ** 32-bit wrap-around and the bit-counting loop *)

Lemma range_all (P : Z -> bool) lo n :
  forallb P (map Z.of_nat (seq lo n)) = true ->
  forall z, Z.of_nat lo <= z < Z.of_nat (lo + n) -> P z = true.
Proof.
  intros H z Hz. rewrite forallb_forall in H. apply H.
  apply in_map_iff. exists (Z.to_nat z). split; [lia |].
  apply in_seq. lia.
Qed.

Lemma wrap32_small z : - 2 ^ 31 <= z < 2 ^ 31 -> wrap32 z = z.
Proof.
  intros H. unfold wrap32. cbv zeta.
  change (2 ^ 32) with 4294967296 in *. change (2 ^ 31) with 2147483648 in *.
  destruct (Z.ltb_spec (z mod 4294967296) 2147483648) as [Hlt | Hge].
  - destruct (Z.neg_nonneg_cases z) as [Hn | Hp].
    + rewrite <- (Z_mod_plus_full z 1 4294967296) in Hlt.
      rewrite Z.mod_small in Hlt by lia. lia.
    + apply Z.mod_small. lia.
  - destruct (Z.neg_nonneg_cases z) as [Hn | Hp].
    + rewrite <- (Z_mod_plus_full z 1 4294967296).
      rewrite Z.mod_small by lia. lia.
    + rewrite Z.mod_small in Hge by lia. lia.
Qed.

Lemma wrap32_mod z : wrap32 z mod 2 ^ 32 = z mod 2 ^ 32.
Proof.
  unfold wrap32. cbv zeta.
  destruct (Z.ltb_spec (z mod 2 ^ 32) (2 ^ 31)).
  - apply Z.mod_mod. discriminate.
  - replace (z mod 2 ^ 32 - 2 ^ 32) with (z mod 2 ^ 32 + (-1) * 2 ^ 32) by ring.
    rewrite Z_mod_plus_full. apply Z.mod_mod. discriminate.
Qed.

Lemma testbit_wrap32 z j : 0 <= j < 32 -> Z.testbit (wrap32 z) j = Z.testbit z j.
Proof.
  intros Hj.
  rewrite <- (Z.mod_pow2_bits_low (wrap32 z) 32 j) by lia.
  rewrite wrap32_mod. apply Z.mod_pow2_bits_low. lia.
Qed.

Lemma land_128 x : Z.land x 128 = if Z.testbit x 7 then 128 else 0.
Proof.
  apply Z.bits_inj'. intros n Hn.
  rewrite Z.land_spec.
  assert (H128 : Z.testbit 128 n = (7 =? n)).
  { change 128 with (2 ^ 7). apply Z.pow2_bits_eqb. lia. }
  rewrite H128.
  destruct (Z.eqb_spec 7 n) as [<- | Hne].
  - rewrite andb_true_r. destruct (Z.testbit x 7); reflexivity.
  - rewrite andb_false_r. destruct (Z.testbit x 7).
    + rewrite H128. reflexivity.
    + apply eq_sym, Z.bits_0.
Qed.

Lemma countWhile_bounded (m : nat) : forall fuel octet acc,
  (m < fuel)%nat ->
  (forall j, 0 <= j < 8 - Z.of_nat m -> Z.testbit (ToInt32 octet) j = false) ->
  exists n, countWhile fuel octet (Int acc) = Some (Int (acc + n)) /\ 0 <= n <= Z.of_nat m.
Proof.
  induction m as [| m IH]; intros fuel octet acc Hfuel Hlow.
  - destruct fuel as [| f]; [lia |]. cbn [countWhile].
    unfold band. cbn [ToInt32 truthy]. rewrite (wrap32_small 128) by (cbn; lia).
    rewrite land_128, Hlow by (cbn; lia). cbn.
    exists 0. rewrite Z.add_0_r. split; [reflexivity | lia].
  - destruct fuel as [| f]; [lia |]. cbn [countWhile].
    unfold band at 1. cbn [ToInt32 truthy]. rewrite (wrap32_small 128) by (cbn; lia).
    rewrite land_128. destruct (Z.testbit (ToInt32 octet) 7) eqn:Hbit; cbn [Z.eqb negb].
    + destruct (IH f (shl octet (Int 1)) (acc + 1)) as (n & Hn & Hr).
      * lia.
      * intros j Hj. unfold shl. cbn [ToInt32 ToUint32].
        change (Z.land (1 mod 2 ^ 32) 31) with 1.
        rewrite !testbit_wrap32 by lia.
        rewrite Z.shiftl_spec by lia.
        destruct (Z.eq_dec j 0) as [-> | Hj0]; [reflexivity |].
        apply Hlow. lia.
      * exists (1 + n). cbn [add]. rewrite Hn. split; [f_equal; f_equal; ring | lia].
    + exists 0. rewrite Z.add_0_r. split; [reflexivity | lia].
Qed.

(** The loop always stops, after at most eight rounds. *)
Lemma countWhile_total octet :
  exists n, countWhile 32 octet (Int 0) = Some (Int n) /\ 0 <= n <= 8.
Proof.
  destruct (countWhile_bounded 8 32 octet 0) as (n & Hn & Hr).
  - lia.
  - intros j Hj. cbn in Hj. lia.
  - exists n. split; [exact Hn | cbn in Hr; lia].
Qed.

(* ================================================================== *)
(** ** Validation and the setters *)

Lemma in_range_okOctet octet :
  lt octet (Int 0) || gt octet (Int 255) = false -> okOctet octet.
Proof.
  destruct octet as [| s | z]; cbn; intros H.
  - left. reflexivity.
  - destruct s; discriminate.
  - right. exists z. split; [reflexivity |].
    apply orb_false_iff in H. destruct H as [H0 H255].
    apply Z.ltb_ge in H0, H255. lia.
Qed.

Lemma in_range_okPrefix n :
  lt n (Int 0) || gt n (Int 32) = false -> okPrefix n.
Proof.
  destruct n as [| s | z]; cbn; intros H.
  - left. reflexivity.
  - destruct s; discriminate.
  - right. exists z. split; [reflexivity |].
    apply orb_false_iff in H. destruct H as [H0 H32].
    apply Z.ltb_ge in H0, H32. lia.
Qed.

Lemma mapM_length {A B} (f : A -> option B) l l' :
  mapM f l = Some l' -> List.length l' = List.length l.
Proof.
  revert l'. induction l as [| x l IH]; intros l' H; cbn in H.
  - injection H as <-. reflexivity.
  - destruct (f x); [| discriminate]. destruct (mapM f l) as [ys |]; [| discriminate].
    injection H as <-. cbn. f_equal. apply IH. reflexivity.
Qed.

(** What [validateIp] can do: it never touches the instance, it throws the
    message it was given, and what it returns has four elements, each NaN
    or an integer from 0 to 255. *)
Lemma validateIp_inv ip msg c :
  match validateIp ip msg c with
  | Normal octs c' =>
      c' = c /\ ipToOctetArray ip = Some octs /\ List.length octs = 4%nat /\ Forall okOctet octs
  | Throw e c' => c' = c /\ e = msg
  | Unmodelled => ipToOctetArray ip = None
  end.
Proof.
  unfold validateIp, bind, value, throw, ret.
  destruct (ipToOctetArray ip) as [octs |]; [| reflexivity].
  destruct (Nat.eqb_spec (List.length octs) 4) as [Hlen | Hlen]; cbn [negb].
  - destruct (existsb _ octs) eqn:Hex.
    + split; reflexivity.
    + repeat split; try assumption.
      apply Forall_forall. intros octet Hin. apply in_range_okOctet.
      destruct (lt octet (Int 0) || gt octet (Int 255)) eqn:Hr; [| reflexivity].
      rewrite <- Hex. apply eq_sym, existsb_exists. exists octet. split; assumption.
  - split; reflexivity.
Qed.

Lemma with_maskBits_twice v w c :
  with_maskBits v (with_maskBits w c) = with_maskBits v c.
Proof. reflexivity. Qed.

Lemma forOctets_sum netmask : forall c acc,
  maskBits c = Int acc ->
  exists n, forOctets netmask c = Normal tt (with_maskBits (Int (acc + n)) c)
            /\ 0 <= n <= 8 * Z.of_nat (List.length netmask).
Proof.
  induction netmask as [| octet rest IH]; intros c acc Hacc.
  - exists 0. cbn. rewrite Z.add_0_r. split; [| lia].
    unfold ret. f_equal. destruct c; cbn in *. subst. reflexivity.
  - destruct (countWhile_total octet) as (k & Hk & Hr).
    cbn [forOctets]. unfold bind at 1, value. rewrite Hk.
    unfold bind at 1, read. unfold bind at 1, write. rewrite Hacc. cbn [add].
    destruct (IH (with_maskBits (Int (acc + k)) c) (acc + k) eq_refl) as (n & Hn & Hrn).
    exists (k + n). rewrite Hn, with_maskBits_twice, Z.add_assoc.
    split; [reflexivity |]. cbn [List.length]. lia.
Qed.

Lemma getMaskBits_cached netmask c :
  truthy (maskBits c) = true ->
  getMaskBitsFromSubnetMask netmask c = Normal (maskBits c) c.
Proof.
  intros H. unfold getMaskBitsFromSubnetMask, bind, read, ret. rewrite H. reflexivity.
Qed.

Lemma getMaskBits_fresh netmask c :
  truthy (maskBits c) = false ->
  exists n, getMaskBitsFromSubnetMask netmask c = Normal (Int n) (with_maskBits (Int n) c)
            /\ 0 <= n <= 8 * Z.of_nat (List.length netmask).
Proof.
  intros H.
  destruct (forOctets_sum netmask (with_maskBits (Int 0) c) 0 eq_refl) as (n & Hn & Hr).
  exists n. split; [| exact Hr].
  unfold getMaskBitsFromSubnetMask. unfold bind at 1, read. rewrite H. cbn [negb].
  unfold bind at 1. unfold bind at 1, write. rewrite Hn. reflexivity.
Qed.

Lemma setIp_throw ip c m c' : setIp ip c = Throw m c' -> c' = c /\ m = invalidIP.
Proof.
  unfold setIp, bind. pose proof (validateIp_inv ip invalidIP c) as Hv.
  destruct (validateIp ip invalidIP c) as [octs c1 | e c1 |].
  - discriminate.
  - intros H. injection H as <- <-. exact Hv.
  - discriminate.
Qed.

Lemma validateMask_ok n msg c : okPrefix n -> validateMask n msg c = Normal n c.
Proof.
  unfold validateMask, throw, ret. intros [-> | (z & -> & Hz)]; cbn.
  - reflexivity.
  - destruct (Z.ltb_spec z 0); [lia |]. destruct (Z.ltb_spec 32 z); [lia |]. reflexivity.
Qed.

Lemma validateMask_inv n msg c :
  match validateMask n msg c with
  | Normal n' c' => c' = c /\ n' = n /\ okPrefix n
  | Throw e c' => c' = c /\ e = msg
  | Unmodelled => False
  end.
Proof.
  unfold validateMask, throw, ret.
  destruct (lt n (Int 0) || gt n (Int 32)) eqn:H.
  - split; reflexivity.
  - repeat split. apply in_range_okPrefix, H.
Qed.

Lemma setMask_throw mask c m c' : setMask mask c = Throw m c' -> c' = c /\ m = invalidMask.
Proof.
  unfold setMask. destruct mask as [n | s].
  - unfold bind at 1, ret. unfold bind.
    pose proof (validateMask_inv n invalidMask c) as Hv.
    destruct (validateMask n invalidMask c); [discriminate | | contradiction].
    intros H. injection H as <- <-. exact Hv.
  - destruct (isDigitString s).
    + unfold bind at 1, ret. unfold bind.
      pose proof (validateMask_inv (parseInt s 10) invalidMask c) as Hv.
      destruct (validateMask (parseInt s 10) invalidMask c); [discriminate | | contradiction].
      intros H. injection H as <- <-. exact Hv.
    + unfold bind at 1. unfold bind at 1.
      pose proof (validateIp_inv s invalidMask c) as Hv.
      destruct (validateIp s invalidMask c) as [octs c1 | e c1 |].
      * destruct Hv as (-> & _ & Hlen & _).
        destruct (truthy (maskBits c)) eqn:Ht.
        -- rewrite getMaskBits_cached by exact Ht. unfold bind.
           pose proof (validateMask_inv (maskBits c) invalidMask c) as Hm.
           destruct (validateMask (maskBits c) invalidMask c); [discriminate | | contradiction].
           intros H. injection H as <- <-. exact Hm.
        -- destruct (getMaskBits_fresh octs c Ht) as (n & Hn & Hr).
           rewrite Hn. unfold bind. rewrite validateMask_ok; [discriminate |].
           right. exists n. split; [reflexivity |]. rewrite Hlen in Hr. lia.
      * intros H. injection H as <- <-. exact Hv.
      * discriminate.
Qed.

Lemma setIp_returns ip c c' :
  setIp ip c = Normal tt c' ->
  exists octs, c' = with_ipOctets octs c /\ ipToOctetArray ip = Some octs
               /\ List.length octs = 4%nat /\ Forall okOctet octs.
Proof.
  unfold setIp, bind. pose proof (validateIp_inv ip invalidIP c) as Hv.
  destruct (validateIp ip invalidIP c) as [octs c1 | e c1 |]; try discriminate.
  destruct Hv as (-> & Hoct & Hlen & Hok). unfold write. intros H. injection H as <-.
  exists octs. repeat split; assumption.
Qed.

Lemma setMask_returns mask c c' :
  setMask mask c = Normal tt c' ->
  exists n, c' = with_maskBits n c /\ okPrefix n.
Proof.
  assert (Hfin : forall n c0, (exists k, c0 = with_maskBits k c) ->
            (checked <- validateMask n invalidMask ;; write (with_maskBits checked)) c0
            = Normal tt c' -> exists n, c' = with_maskBits n c /\ okPrefix n).
  { intros n c0 (k & ->). unfold bind.
    pose proof (validateMask_inv n invalidMask (with_maskBits k c)) as Hv.
    destruct (validateMask n invalidMask (with_maskBits k c)) as [n' c1 | |]; try discriminate.
    destruct Hv as (-> & -> & Hok). unfold write. intros H. injection H as <-.
    exists n. split; [reflexivity | exact Hok]. }
  assert (Hid : exists k, c = with_maskBits k c).
  { exists (maskBits c). destruct c; reflexivity. }
  unfold setMask. destruct mask as [n | s].
  - unfold bind at 1, ret. apply Hfin, Hid.
  - destruct (isDigitString s).
    + unfold bind at 1, ret. apply Hfin, Hid.
    + unfold bind at 1. unfold bind at 1.
      pose proof (validateIp_inv s invalidMask c) as Hv.
      destruct (validateIp s invalidMask c) as [octs c1 | e c1 |]; try discriminate.
      destruct Hv as (-> & _ & Hlen & _).
      destruct (truthy (maskBits c)) eqn:Ht.
      * rewrite getMaskBits_cached by exact Ht. apply Hfin, Hid.
      * destruct (getMaskBits_fresh octs c Ht) as (n & Hn & Hr). rewrite Hn.
        apply Hfin. exists (Int n). reflexivity.
Qed.

(* ================================================================== *)
(** ** Octets, and the way through [join], [split] and [Number] *)

Lemma bytes_all (P : Z -> bool) :
  forallb P bytes = true -> forall z, 0 <= z <= 255 -> P z = true.
Proof.
  intros H z Hz. rewrite forallb_forall in H. apply H.
  unfold bytes. apply in_map_iff. exists (Z.to_nat z). split; [lia |].
  apply in_seq. lia.
Qed.

Lemma land_255 x : Z.land x 255 = x mod 256.
Proof. change 255 with (Z.ones 8). rewrite Z.land_ones by lia. reflexivity. Qed.

Lemma land_byte a m : 0 <= m <= 255 -> 0 <= Z.land a m <= 255.
Proof.
  intros Hm.
  assert (Hmm : Z.land m 255 = m) by (rewrite land_255; apply Z.mod_small; lia).
  rewrite <- Hmm, Z.land_assoc, land_255.
  pose proof (Z.mod_pos_bound (Z.land a m) 256 eq_refl). lia.
Qed.

Lemma lor_byte a b : 0 <= a <= 255 -> 0 <= b <= 255 -> 0 <= Z.lor a b <= 255.
Proof.
  intros Ha Hb.
  assert (Hm : forall m, 0 <= m <= 255 -> Z.land m 255 = m).
  { intros m Hm. rewrite land_255. apply Z.mod_small. lia. }
  rewrite <- (Hm a Ha), <- (Hm b Hb), <- Z.land_lor_distr_l.
  apply land_byte. lia.
Qed.

Lemma ToInt32_byte z : 0 <= z <= 255 -> ToInt32 (Int z) = z.
Proof. intros Hz. apply wrap32_small. cbn. lia. Qed.

Lemma band_byte x m : isByte m -> isByte (band x m).
Proof.
  intros (z & -> & Hz). unfold band. rewrite (ToInt32_byte z Hz).
  eexists. split; [reflexivity |]. apply land_byte, Hz.
Qed.

Lemma bor_byte a b : isByte a -> isByte b -> isByte (bor a b).
Proof.
  intros (x & -> & Hx) (y & -> & Hy). unfold bor.
  rewrite (ToInt32_byte x Hx), (ToInt32_byte y Hy).
  eexists. split; [reflexivity |]. apply lor_byte; assumption.
Qed.

Lemma isByte_255 : isByte (Int 255).
Proof. exists 255. split; [reflexivity | lia]. Qed.

Lemma band_255 a : 0 <= a <= 255 -> band (Int a) (Int 255) = Int a.
Proof.
  intros Ha. unfold band. rewrite !ToInt32_byte by lia.
  rewrite land_255. f_equal. apply Z.mod_small. lia.
Qed.

Lemma split_noDot s : noDot s = true -> split "." s = [s].
Proof.
  induction s as [| c s IH]; cbn; intros H; [reflexivity |].
  apply andb_true_iff in H. destruct H as [Hc Hs].
  destruct (Ascii.eqb c "."); [discriminate |]. rewrite (IH Hs). reflexivity.
Qed.

Lemma split_app s t :
  noDot s = true -> split "." (s ++ String "." t) = s :: split "." t.
Proof.
  induction s as [| c s IH]; cbn; intros H; [reflexivity |].
  apply andb_true_iff in H. destruct H as [Hc Hs].
  destruct (Ascii.eqb c "."); [discriminate |]. rewrite (IH Hs). reflexivity.
Qed.

Lemma decimalRoundTrips_bytes : forallb decimalRoundTrips bytes = true.
Proof. vm_compute. reflexivity. Qed.

Lemma decimal_byte z :
  0 <= z <= 255 ->
  noDot (toString 10 (Int z)) = true /\ Number (toString 10 (Int z)) = Some (Int z).
Proof.
  intros Hz. pose proof (bytes_all _ decimalRoundTrips_bytes z Hz) as H.
  unfold decimalRoundTrips in H. apply andb_true_iff in H. destruct H as [Hd Hn].
  split; [exact Hd |].
  destruct (Number (toString 10 (Int z))) as [[| s | y] |]; try discriminate.
  apply Z.eqb_eq in Hn. subst. reflexivity.
Qed.

Lemma ipToOctetArray_join a b c d :
  0 <= a <= 255 -> 0 <= b <= 255 -> 0 <= c <= 255 -> 0 <= d <= 255 ->
  ipToOctetArray (join "." [Int a; Int b; Int c; Int d]) = Some [Int a; Int b; Int c; Int d].
Proof.
  intros Ha Hb Hc Hd.
  destruct (decimal_byte a Ha) as [Da Na], (decimal_byte b Hb) as [Db Nb],
           (decimal_byte c Hc) as [Dc Nc], (decimal_byte d Hd) as [Dd Nd].
  unfold ipToOctetArray, join. cbn [map String.concat].
  repeat change (String.append "." ?s) with (String "."%char s).
  rewrite !split_app, split_noDot by assumption.
  cbn [mapM]. rewrite Na, Nb, Nc, Nd. reflexivity.
Qed.

Lemma validateIp_join msg this a b c d :
  0 <= a <= 255 -> 0 <= b <= 255 -> 0 <= c <= 255 -> 0 <= d <= 255 ->
  validateIp (join "." [Int a; Int b; Int c; Int d]) msg this
  = Normal [Int a; Int b; Int c; Int d] this.
Proof.
  intros Ha Hb Hc Hd. unfold validateIp, bind, value.
  rewrite ipToOctetArray_join by assumption.
  cbn [List.length Nat.eqb negb existsb lt gt].
  refute_ltb.
  reflexivity.
Qed.

(* ================================================================== *)
(** ** [calculate] in closed form *)

Lemma getNetworkMask_bytes mask :
  Forall isByte (getNetworkMask mask) /\ List.length (getNetworkMask mask) = 4%nat.
Proof.
  split; [| reflexivity].
  unfold getNetworkMask. repeat constructor; apply band_byte, isByte_255.
Qed.

Lemma at_isByte l i : Forall isByte l -> (i < List.length l)%nat -> isByte (at_ l i).
Proof.
  intros Hl Hi. rewrite Forall_forall in Hl. apply Hl. apply nth_In, Hi.
Qed.

Lemma getBroadcast_bytes ip mask :
  exists b0 b1 b2 b3,
    getBroadcast (getNetwork ip (getNetworkMask mask)) (getInvertedMask (getNetworkMask mask))
    = [Int b0; Int b1; Int b2; Int b3]
    /\ 0 <= b0 <= 255 /\ 0 <= b1 <= 255 /\ 0 <= b2 <= 255 /\ 0 <= b3 <= 255.
Proof.
  destruct (getNetworkMask_bytes mask) as [Hb Hlen].
  set (netmask := getNetworkMask mask) in *.
  assert (H : forall i, (i < 4)%nat ->
            isByte (bor (band (at_ ip i) (at_ netmask i)) (band (bnot (at_ netmask i)) (Int 255)))).
  { intros i Hi. apply bor_byte; apply band_byte.
    - apply at_isByte; [exact Hb | lia].
    - apply isByte_255. }
  destruct (H 0%nat) as (b0 & E0 & R0); [lia |].
  destruct (H 1%nat) as (b1 & E1 & R1); [lia |].
  destruct (H 2%nat) as (b2 & E2 & R2); [lia |].
  destruct (H 3%nat) as (b3 & E3 & R3); [lia |].
  exists b0, b1, b2, b3. unfold getBroadcast, getNetwork, getInvertedMask.
  cbn [at_ nth]. rewrite E0, E1, E2, E3.
  repeat split; lia.
Qed.

Lemma getHostMax_run ip mask this :
  getHostMax (getBroadcast (getNetwork ip (getNetworkMask mask))
                           (getInvertedMask (getNetworkMask mask))) this
  = Normal (hostMaxOf (getBroadcast (getNetwork ip (getNetworkMask mask))
                                    (getInvertedMask (getNetworkMask mask)))) this.
Proof.
  destruct (getBroadcast_bytes ip mask) as (b0 & b1 & b2 & b3 & -> & H0 & H1 & H2 & H3).
  unfold getHostMax, convertToHexa. unfold bind at 1. unfold bind at 1.
  rewrite validateIp_join by assumption. reflexivity.
Qed.

Lemma calculate_throws c :
  ipOctets c = [] \/ maskBits c = Int 0 -> calculate c = Throw invalidIPorMask c.
Proof.
  intros H. unfold calculate. unfold bind at 1, read. unfold bind at 1.
  destruct H as [H | H]; rewrite H; [reflexivity |].
  cbn [strictEq Z.eqb]. rewrite orb_true_r. reflexivity.
Qed.

Lemma calculate_prefix c p :
  ipOctets c <> [] -> maskBits c = Int p -> 1 <= p <= 32 ->
  calculate c = Normal tt (calculated (ipOctets c) (Int p) p).
Proof.
  intros Hip Hp Hr. unfold calculate. unfold bind at 1, read. unfold bind at 1.
  destruct (ipOctets c) as [| o os] eqn:Hoct; [contradiction |].
  rewrite Hp. cbn [List.length Nat.eqb orb strictEq].
  destruct (Z.eqb_spec p 0) as [-> | Hne]; [lia |].
  cbv zeta. unfold bind at 1, value. cbn [getHostMin getNetwork].
  unfold bind at 1. rewrite getHostMax_run.
  assert (Ht : truthy (maskBits c) = true).
  { rewrite Hp. cbn. destruct (Z.eqb_spec p 0); [lia | reflexivity]. }
  unfold bind at 1. unfold getHostNumber. unfold bind at 1.
  rewrite getMaskBits_cached by exact Ht. rewrite Hp.
  unfold bind at 1, value. cbn [sub neg add pow2].
  destruct (Z.leb_spec 0 (32 + - p)) as [_ | Hbad]; [| lia].
  unfold ret. unfold bind at 1. unfold getNetworkNumber. unfold bind at 1.
  rewrite getMaskBits_cached by exact Ht. rewrite Hp. unfold value. cbn [pow2].
  destruct (Z.leb_spec 0 p) as [_ | Hbad]; [| lia].
  unfold write. rewrite Hp, Hoct. unfold calculated. cbn [add at_ nth getNetwork].
  rewrite !Z.add_opp_r. reflexivity.
Qed.

Lemma getMaskBits_NaN c :
  maskBits c = NaN ->
  getMaskBitsFromSubnetMask (getNetworkMask NaN) c = Normal (Int 32) (with_maskBits (Int 32) c).
Proof.
  intros H. unfold getMaskBitsFromSubnetMask. unfold bind at 1, read. rewrite H.
  reflexivity.
Qed.

Lemma calculate_NaN c :
  ipOctets c <> [] -> maskBits c = NaN ->
  calculate c = Normal tt (calculated (ipOctets c) NaN 32).
Proof.
  intros Hip Hp. unfold calculate. unfold bind at 1, read. unfold bind at 1.
  destruct (ipOctets c) as [| o os] eqn:Hoct; [contradiction |].
  rewrite Hp. cbn [List.length Nat.eqb orb strictEq].
  cbv zeta. unfold bind at 1, value. cbn [getHostMin getNetwork].
  unfold bind at 1. rewrite getHostMax_run.
  unfold bind at 1. unfold getHostNumber. unfold bind at 1.
  rewrite getMaskBits_NaN by exact Hp.
  unfold bind at 1, value. change (pow2 (sub (Int 32) (Int 32))) with (Some (Int 1)).
  unfold ret. unfold bind at 1. unfold getNetworkNumber. unfold bind at 1.
  rewrite getMaskBits_cached by reflexivity.
  change (maskBits (with_maskBits (Int 32) c)) with (Int 32).
  unfold value. change (pow2 (Int 32)) with (Some (Int (2 ^ 32))).
  unfold write. cbn [maskBits ipOctets with_maskBits]. rewrite Hoct.
  reflexivity.
Qed.

Lemma calculate_returns c c' :
  okPrefix (maskBits c) -> calculate c = Normal tt c' ->
  ipOctets c' = ipOctets c /\ okPrefix (maskBits c').
Proof.
  intros Hok H.
  destruct (ipOctets c) as [| o os] eqn:Hoct.
  { rewrite calculate_throws in H by (left; exact Hoct). discriminate. }
  assert (Hne : ipOctets c <> []) by (rewrite Hoct; discriminate).
  destruct Hok as [Hnan | (p & Hp & Hr)].
  - rewrite (calculate_NaN c Hne Hnan) in H. injection H as <-. cbn.
    split; [exact Hoct |]. right. exists 32. split; [reflexivity | lia].
  - destruct (Z.eq_dec p 0) as [-> | Hp0].
    { rewrite calculate_throws in H by (right; exact Hp). discriminate. }
    rewrite (calculate_prefix c p Hne Hp) in H by lia. injection H as <-. cbn.
    split; [exact Hoct |]. right. exists p. split; [reflexivity | lia].
Qed.

Lemma calculate_outcome c :
  okPrefix (maskBits c) ->
  (ipOctets c = [] \/ maskBits c = Int 0) /\ calculate c = Throw invalidIPorMask c
  \/ ~ (ipOctets c = [] \/ maskBits c = Int 0) /\ exists c', calculate c = Normal tt c'.
Proof.
  intros Hok.
  destruct (ipOctets c) as [| o os] eqn:Hoct.
  { left. split; [left; reflexivity |]. apply calculate_throws. left. exact Hoct. }
  assert (Hne : ipOctets c <> []) by (rewrite Hoct; discriminate).
  destruct Hok as [Hnan | (p & Hp & Hr)].
  - right. split.
    + intros [H | H]; [discriminate | congruence].
    + eexists. apply calculate_NaN; assumption.
  - destruct (Z.eq_dec p 0) as [-> | Hp0].
    + left. split; [right; exact Hp |]. apply calculate_throws. right. exact Hp.
    + right. split.
      * intros [H | H]; [discriminate | congruence].
      * eexists. apply (calculate_prefix c p Hne Hp). lia.
Qed.

Lemma new_invariant options c : new options = Normal tt c -> invariant c.
Proof.
  unfold new. set (ip0 := match options with Some (mkOptions (Some s) _) => s | _ => _ end).
  set (mask0 := match options with Some (mkOptions _ (Some m)) => m | _ => _ end).
  unfold bind at 1. destruct (setIp ip0 blank) as [[] c1 | |] eqn:Hip; try discriminate.
  intros Hm. apply setIp_returns in Hip. destruct Hip as (octs & -> & _ & Hlen & Hok).
  apply setMask_returns in Hm. destruct Hm as (n & -> & Hn).
  repeat split; assumption.
Qed.

(** Every instance a caller can hold has four octets, each NaN or an
    integer from 0 to 255, and a prefix that is NaN or from 0 to 32. *)
Lemma reachable_invariant c : reachable c -> invariant c.
Proof.
  induction 1 as [options c Hnew | c ip0 c' _ IH Hs | c mask0 c' _ IH Hs | c c' _ IH Hs].
  - eapply new_invariant, Hnew.
  - apply setIp_returns in Hs. destruct Hs as (octs & -> & _ & Hlen & Hok).
    destruct IH as (_ & _ & Hp). repeat split; assumption.
  - apply setMask_returns in Hs. destruct Hs as (n & -> & Hn).
    destruct IH as (Hlen & Hok & _). repeat split; assumption.
  - destruct IH as (Hlen & Hok & Hp).
    destruct (calculate_returns c c' Hp Hs) as [Hoct Hp'].
    unfold invariant. rewrite Hoct. repeat split; assumption.
Qed.

(* ================================================================== *)
(** ** Hexadecimal digits *)

Lemma hexRoundTrips_bytes : forallb hexRoundTrips bytes = true.
Proof. vm_compute. reflexivity. Qed.

Lemma hexDigitOk_bytes : forallb hexDigitOk bytes = true.
Proof. vm_compute. reflexivity. Qed.

Lemma hex2_byte z :
  0 <= z <= 255 ->
  hex2 (Int z) = String (digitChar (z / 16)) (String (digitChar (z mod 16)) "")
  /\ parseInt (hex2 (Int z)) 16 = Int z.
Proof.
  intros Hz. pose proof (bytes_all _ hexRoundTrips_bytes z Hz) as H.
  unfold hexRoundTrips in H. apply andb_true_iff in H. destruct H as [Hs Hp].
  split; [apply String.eqb_eq, Hs |].
  destruct (parseInt (hex2 (Int z)) 16) as [| s | y]; try discriminate.
  apply Z.eqb_eq in Hp. subst. reflexivity.
Qed.

Lemma hexDigit h :
  0 <= h <= 15 ->
  let c := digitChar h in
  digitValue c = Some h /\ isDigitIn 16 c = true /\ isWhiteSpace c = false
  /\ isLineTerminator c = false /\ isChar "-" c = false /\ isChar "+" c = false
  /\ isChar "x" c = false /\ isChar "X" c = false.
Proof.
  intros Hh c. assert (Hb : 0 <= h <= 255) by lia.
  pose proof (bytes_all _ hexDigitOk_bytes h Hb) as H. unfold hexDigitOk in H.
  rewrite (Z.mod_small h 16) in H by lia. fold c in H.
  repeat (apply andb_true_iff in H; destruct H as [H ?]).
  unfold isDigitIn.
  destruct (digitValue c) as [d |]; [| discriminate]. apply Z.eqb_eq in H. subst d.
  repeat match goal with
  | Hn : negb _ = true |- _ => apply negb_true_iff in Hn
  end.
  repeat split; try assumption. apply Z.ltb_lt. lia.
Qed.

Lemma natDigits_enough f1 : forall f2 n acc,
  0 <= n < 16 ^ Z.of_nat (S f1) -> 0 <= n < 16 ^ Z.of_nat (S f2) ->
  natDigits (S f1) 16 n acc = natDigits (S f2) 16 n acc.
Proof.
  induction f1 as [| f1 IH]; intros f2 n acc H1 H2.
  - change (16 ^ Z.of_nat 1) with 16 in H1.
    cbn [natDigits]. replace (n / 16) with 0 by dlia. reflexivity.
  - cbn [natDigits]. destruct (Z.eqb_spec (n / 16) 0) as [Hq | Hq]; [reflexivity |].
    destruct f2 as [| f2].
    + change (16 ^ Z.of_nat 1) with 16 in H2. dlia.
    + change (natDigits (S f1) 16 (n / 16) ?a = natDigits (S f2) 16 (n / 16) ?b)
        with (natDigits (S f1) 16 (n / 16) a = natDigits (S f2) 16 (n / 16) a).
      rewrite Nat2Z.inj_succ, Z.pow_succ_r in H1, H2 by lia.
      apply IH; dlia.
Qed.

Lemma digitsOf_fuel n : 0 < n -> n < 16 ^ Z.of_nat (S (Z.to_nat (Z.log2 n))).
Proof.
  intros Hn. destruct (Z.log2_spec n Hn) as [_ Hup].
  pose proof (Z.log2_nonneg n) as H0.
  rewrite Nat2Z.inj_succ, Z2Nat.id by exact H0.
  eapply Z.lt_le_trans; [exact Hup |].
  apply Z.pow_le_mono_l. lia.
Qed.

Lemma digitsOf_8 w :
  16 ^ 7 <= w < 16 ^ 8 ->
  digitsOf 16 w =
  String (digitChar (w / 16 / 16 / 16 / 16 / 16 / 16 / 16 mod 16))
  (String (digitChar (w / 16 / 16 / 16 / 16 / 16 / 16 mod 16))
  (String (digitChar (w / 16 / 16 / 16 / 16 / 16 mod 16))
  (String (digitChar (w / 16 / 16 / 16 / 16 mod 16))
  (String (digitChar (w / 16 / 16 / 16 mod 16))
  (String (digitChar (w / 16 / 16 mod 16))
  (String (digitChar (w / 16 mod 16))
  (String (digitChar (w mod 16)) ""))))))).
Proof.
  intros Hw. change (16 ^ 7) with 268435456 in Hw. change (16 ^ 8) with 4294967296 in Hw.
  unfold digitsOf.
  rewrite (natDigits_enough _ 7).
  - cbn [natDigits].
    repeat match goal with
    | |- context [?q =? 0] => destruct (Z.eqb_spec q 0); [dlia |]
    end.
    destruct (_ =? 0); reflexivity.
  - split; [lia | apply digitsOf_fuel; lia].
  - change (16 ^ Z.of_nat 8) with 4294967296. lia.
Qed.

Lemma nibble_pair n : 16 * ((n / 16) mod 16) + n mod 16 = n mod 256.
Proof. dlia. Qed.

Lemma parseInt_nibbles x y :
  0 <= x <= 15 -> 0 <= y <= 15 ->
  parseInt (String (digitChar x) (String (digitChar y) "")) 16 = Int (16 * x + y).
Proof.
  intros Hx Hy. assert (Hz : 0 <= 16 * x + y <= 255) by lia.
  destruct (hex2_byte _ Hz) as [Hs Hp]. rewrite Hs in Hp.
  replace ((16 * x + y) / 16) with x in Hp by dlia.
  replace ((16 * x + y) mod 16) with y in Hp by dlia.
  exact Hp.
Qed.

Lemma parseInt_8 h7 h6 h5 h4 h3 h2 h1 h0 :
  0 <= h7 <= 15 -> 0 <= h6 <= 15 -> 0 <= h5 <= 15 -> 0 <= h4 <= 15 ->
  0 <= h3 <= 15 -> 0 <= h2 <= 15 -> 0 <= h1 <= 15 -> 0 <= h0 <= 15 ->
  parseInt (String (digitChar h7) (String (digitChar h6) (String (digitChar h5)
           (String (digitChar h4) (String (digitChar h3) (String (digitChar h2)
           (String (digitChar h1) (String (digitChar h0) "")))))))) 16
  = Int (((((((h7 * 16 + h6) * 16 + h5) * 16 + h4) * 16 + h3) * 16 + h2) * 16 + h1) * 16 + h0).
Proof.
  intros H7 H6 H5 H4 H3 H2 H1 H0.
  destruct (hexDigit h7 H7) as (V7 & D7 & W7 & _ & M7 & P7 & _).
  destruct (hexDigit h6 H6) as (V6 & D6 & _ & _ & _ & _ & X6 & Y6).
  destruct (hexDigit h5 H5) as (V5 & D5 & _).
  destruct (hexDigit h4 H4) as (V4 & D4 & _).
  destruct (hexDigit h3 H3) as (V3 & D3 & _).
  destruct (hexDigit h2 H2) as (V2 & D2 & _).
  destruct (hexDigit h1 H1) as (V1 & D1 & _).
  destruct (hexDigit h0 H0) as (V0 & D0 & _).
  unfold parseInt. cbn [list_ascii_of_string trimStart dropWhile].
  rewrite W7. cbn [stripSign]. rewrite M7, P7. cbn [Z.eqb Pos.eqb strip0x].
  rewrite X6, Y6. cbn [orb]. rewrite andb_false_r.
  cbn [takeWhile]. rewrite D7, D6, D5, D4, D3, D2, D1, D0.
  unfold digitsValue. cbn [fold_left signed].
  rewrite V7, V6, V5, V4, V3, V2, V1, V0. reflexivity.
Qed.

Lemma chunks_8 c7 c6 c5 c4 c3 c2 c1 c0 :
  isLineTerminator c7 = false -> isLineTerminator c6 = false ->
  isLineTerminator c5 = false -> isLineTerminator c4 = false ->
  isLineTerminator c3 = false -> isLineTerminator c2 = false ->
  isLineTerminator c1 = false -> isLineTerminator c0 = false ->
  chunks [c7; c6; c5; c4; c3; c2; c1; c0]
  = [String c7 (String c6 ""); String c5 (String c4 "");
     String c3 (String c2 ""); String c1 (String c0 "")].
Proof.
  intros H7 H6 H5 H4 H3 H2 H1 H0. cbn [chunks].
  rewrite H7, H6, H5, H4, H3, H2, H1, H0. reflexivity.
Qed.

(** The maximum host address, when the decremented value keeps eight
    hexadecimal digits: the octets of the broadcast value minus one. *)
Lemma hostMaxOf_decrement b0 b1 b2 b3 :
  0 <= b0 <= 255 -> 0 <= b1 <= 255 -> 0 <= b2 <= 255 -> 0 <= b3 <= 255 ->
  let w := b0 * 2 ^ 24 + b1 * 2 ^ 16 + b2 * 2 ^ 8 + b3 - 1 in
  2 ^ 28 <= w ->
  hostMaxOf [Int b0; Int b1; Int b2; Int b3]
  = [Int (w / 2 ^ 24); Int (w / 2 ^ 16 mod 256); Int (w / 2 ^ 8 mod 256); Int (w mod 256)].
Proof.
  intros H0 H1 H2 H3 w Hw.
  change (2 ^ 24) with 16777216 in *. change (2 ^ 16) with 65536 in *.
  change (2 ^ 8) with 256 in *. change (2 ^ 28) with 268435456 in *.
  unfold hostMaxOf. cbn [map String.concat].
  destruct (hex2_byte b0 H0) as [-> _]. destruct (hex2_byte b1 H1) as [-> _].
  destruct (hex2_byte b2 H2) as [-> _]. destruct (hex2_byte b3 H3) as [-> _].
  cbn [String.append]. unfold subtractFromHex.
  rewrite parseInt_8 by dlia. cbn [sub neg add lt].
  match goal with |- context [Int (?v + - (1))] => replace (v + - (1)) with w by (unfold w; dlia) end.
  destruct (Z.ltb_spec w 0) as [Hneg | _]; [lia |].
  unfold toString. destruct (Z.ltb_spec w 0) as [Hneg | _]; [lia |].
  rewrite digitsOf_8 by (change (16 ^ 7) with 268435456; change (16 ^ 8) with 4294967296; unfold w; lia).
  unfold padStart0. cbn [String.length Nat.sub repeat string_of_list_ascii String.append].
  unfold hexaToIpArray. cbn [list_ascii_of_string].
  rewrite chunks_8 by (apply hexDigit; dlia).
  cbn [map]. rewrite !parseInt_nibbles by dlia.
  assert (Hup : w < 4294967296) by (unfold w; lia). clearbody w.
  rewrite !nibble_pair, !Z.div_div by lia.
  cbn [Z.mul Pos.mul Pos.add].
  rewrite (Z.mod_small (w / 16777216) 256) by dlia. reflexivity.
Qed.

Lemma countsLeadingOnes_bytes : forallb countsLeadingOnes (map Z.of_nat (seq 0 256)) = true.
Proof. vm_compute. reflexivity. Qed.

Lemma countWhile_leadingOnes z :
  0 <= z <= 255 -> countWhile 32 (Int z) (Int 0) = Some (Int (leadingOnes z)).
Proof.
  intros Hz. pose proof (range_all _ _ _ countsLeadingOnes_bytes z) as H.
  unfold countsLeadingOnes in H.
  destruct (countWhile 32 (Int z) (Int 0)) as [[| s | n] |];
    try (discriminate H; cbn; lia).
  f_equal. f_equal. apply Z.eqb_eq, H. cbn. lia.
Qed.

Lemma netmaskBitsOk_all : forallb netmaskBitsOk (map Z.of_nat (seq 1 32)) = true.
Proof. vm_compute. reflexivity. Qed.


(* ================================================================== *)
(** ** The claims of the specification *)

(** *** C1: what [setIp] rejects *)

(** X1.  [setIp] throws InvalidAddress, leaving the instance alone, on a
    string that does not split into four segments and on one with a
    segment below 0 or above 255. *)
Lemma setIp_rejects ip c octs :
  ipToOctetArray ip = Some octs ->
  List.length octs <> 4%nat
  \/ Exists (fun o => lt o (Int 0) = true \/ gt o (Int 255) = true) octs ->
  setIp ip c = Throw invalidIP c.
Proof.
  intros Hoct H. unfold setIp, bind, validateIp, bind, value. rewrite Hoct.
  destruct (Nat.eqb_spec (List.length octs) 4) as [Hlen | Hlen]; cbn [negb]; [| reflexivity].
  destruct H as [H | H]; [contradiction |].
  replace (existsb _ octs) with true; [reflexivity |].
  symmetry. apply existsb_exists. apply Exists_exists in H. destruct H as (o & Hin & Ho).
  exists o. split; [exact Hin |]. apply orb_true_iff, Ho.
Qed.

(** C1.  The specification wants [setIp] to fail with InvalidAddress on
    non-numeric segments, and names [setIp('a.b.c.d')].  The code returns
    normally there, on every instance, and stores four NaN: [NaN < 0] and
    [NaN > 255] are both false, so the range test of [validateIp] lets NaN
    through. *)
Theorem setIp_accepts_non_numeric c :
  setIp "a.b.c.d" c = Normal tt (with_ipOctets [NaN; NaN; NaN; NaN] c).
Proof. reflexivity. Qed.

(** *** C2: the prefix of a dotted mask *)

(** With no prefix stored (0 or NaN), a dotted mask stores the sum of the
    leading one-bits of its octets, as the specification says. *)
Lemma setMask_dotted_fresh c s a b d e :
  truthy (maskBits c) = false ->
  isDigitString s = false ->
  ipToOctetArray s = Some [Int a; Int b; Int d; Int e] ->
  0 <= a <= 255 -> 0 <= b <= 255 -> 0 <= d <= 255 -> 0 <= e <= 255 ->
  setMask (MaskString s) c = Normal tt (with_maskBits (Int (specPrefix [a; b; d; e])) c).
Proof.
  intros Ht Hs Hoct Ha Hb Hd He.
  assert (Hcount : 0 <= specPrefix [a; b; d; e] <= 32).
  { pose proof (countWhile_total (Int a)) as (na & Ena & Hna).
    pose proof (countWhile_total (Int b)) as (nb & Enb & Hnb).
    pose proof (countWhile_total (Int d)) as (nd & End' & Hnd).
    pose proof (countWhile_total (Int e)) as (ne & Ene & Hne).
    rewrite countWhile_leadingOnes in Ena, Enb, End', Ene by assumption.
    injection Ena as Ea. injection Enb as Eb. injection End' as Ed. injection Ene as Ee.
    unfold specPrefix. cbn [fold_right]. lia. }
  unfold setMask. rewrite Hs. unfold bind at 1. unfold bind at 1.
  unfold validateIp, bind, value. rewrite Hoct.
  cbn [List.length Nat.eqb negb existsb lt gt].
  refute_ltb.
  cbn [orb]. unfold ret at 1.
  unfold getMaskBitsFromSubnetMask. unfold bind at 1, read. rewrite Ht. cbn [negb].
  unfold bind at 1. unfold bind at 1. unfold write at 1.
  cbn [forOctets]. unfold bind, value, read, write, ret.
  rewrite !countWhile_leadingOnes by assumption.
  cbn [maskBits with_maskBits add].
  unfold validateMask. cbn [lt gt].
  replace (0 + leadingOnes a + leadingOnes b + leadingOnes d + leadingOnes e)
    with (specPrefix [a; b; d; e]) by (unfold specPrefix; cbn [fold_right]; ring).
  destruct (Z.ltb_spec (specPrefix [a; b; d; e]) 0); [lia |].
  destruct (Z.ltb_spec 32 (specPrefix [a; b; d; e])); [lia |].
  reflexivity.
Qed.

(** C2.  The specification wants [setMask('255.255.0.0')] to store 16, the
    sum of the leading one-bits of the octets, also after a successful
    [setMask(32)].  On every instance whose stored prefix is 32 the code
    stores 32 again: [getMaskBitsFromSubnetMask] returns the stored prefix
    whenever it is non-zero and never looks at the octets. *)
Theorem setMask_dotted_after_32 c :
  maskBits c = Int 32 ->
  exists c', setMask (MaskString "255.255.0.0") c = Normal tt c'
             /\ maskBits c' = Int 32 /\ specPrefix [255; 255; 0; 0] = 16.
Proof.
  intros H. exists (with_maskBits (Int 32) c). repeat split.
  unfold setMask. change (isDigitString "255.255.0.0") with false. cbv iota.
  unfold bind at 1. unfold bind at 1.
  change (validateIp "255.255.0.0" invalidMask c)
    with (Normal [Int 255; Int 255; Int 0; Int 0] c).
  cbv iota beta.
  rewrite getMaskBits_cached by (rewrite H; reflexivity).
  rewrite H. reflexivity.
Qed.

Lemma setMask_dotted_after_32_witness :
  maskBits (with_maskBits (Int 32) blank) = Int 32
  /\ exists c', setMask (MaskString "255.255.0.0") (with_maskBits (Int 32) blank) = Normal tt c'
                /\ maskBits c' = Int 32 /\ specPrefix [255; 255; 0; 0] = 16.
Proof.
  split; [reflexivity |].
  apply (setMask_dotted_after_32 (with_maskBits (Int 32) blank)). reflexivity.
Defined.

(** *** C3: the maximum host address *)

(** The claim as stated fails on 192.168.1.0/32: the broadcast address is
    192.168.1.0, the specification's rule (last byte wraps to 255, no
    borrow) gives 192.168.1.255, the code gives 192.168.0.255. *)
Lemma hostMax_last_byte_counterexample :
  exists c', run "192.168.1.0" (MaskNumber (Int 32)) = Normal tt c'
             /\ broadcast c' = join "." (map Int [192; 168; 1; 0])
             /\ hostMax c' = "192.168.0.255"
             /\ hostMax c' <> join "." (map Int (specHostMax [192; 168; 1; 0])).
Proof.
  eexists. split; [vm_compute; reflexivity |].
  repeat split. vm_compute. discriminate.
Qed.

(** C3, amended.  For every stored address of four octets and prefix from
    1 to 32, [calculate] returns; the broadcast address has four octets
    from 0 to 255; and when the broadcast address, read as one 32-bit
    integer, minus 1 is at least 0x10000000, [hostMax] is that decremented
    integer split into its four octets: the decrement is of the whole
    value, so a zero last byte borrows from the preceding bytes. *)
Theorem hostMax_decrements_whole_value c p :
  List.length (ipOctets c) = 4%nat -> maskBits c = Int p -> 1 <= p <= 32 ->
  exists c' b0 b1 b2 b3,
    calculate c = Normal tt c'
    /\ broadcast c' = join "." [Int b0; Int b1; Int b2; Int b3]
    /\ (0 <= b0 <= 255 /\ 0 <= b1 <= 255 /\ 0 <= b2 <= 255 /\ 0 <= b3 <= 255)
    /\ (let w := b0 * 2 ^ 24 + b1 * 2 ^ 16 + b2 * 2 ^ 8 + b3 - 1 in
        2 ^ 28 <= w ->
        hostMax c' = join "." [Int (w / 2 ^ 24); Int (w / 2 ^ 16 mod 256);
                               Int (w / 2 ^ 8 mod 256); Int (w mod 256)]).
Proof.
  intros Hlen Hp Hr.
  assert (Hne : ipOctets c <> []) by (intros E; rewrite E in Hlen; discriminate).
  destruct (getBroadcast_bytes (ipOctets c) (Int p)) as (b0 & b1 & b2 & b3 & Hb & H0 & H1 & H2 & H3).
  exists (calculated (ipOctets c) (Int p) p), b0, b1, b2, b3.
  split; [apply calculate_prefix; assumption |].
  cbn [calculated broadcast hostMax]. rewrite Hb.
  split; [reflexivity |]. split; [repeat split; lia |].
  cbv zeta. intros Hw. rewrite (hostMaxOf_decrement b0 b1 b2 b3 H0 H1 H2 H3 Hw). reflexivity.
Qed.

Lemma hostMax_decrements_whole_value_witness :
  List.length (ipOctets sample) = 4%nat /\ maskBits sample = Int 24 /\ 1 <= 24 <= 32
  /\ exists c' b0 b1 b2 b3,
    calculate sample = Normal tt c'
    /\ broadcast c' = join "." [Int b0; Int b1; Int b2; Int b3]
    /\ (0 <= b0 <= 255 /\ 0 <= b1 <= 255 /\ 0 <= b2 <= 255 /\ 0 <= b3 <= 255)
    /\ (let w := b0 * 2 ^ 24 + b1 * 2 ^ 16 + b2 * 2 ^ 8 + b3 - 1 in
        2 ^ 28 <= w ->
        hostMax c' = join "." [Int (w / 2 ^ 24); Int (w / 2 ^ 16 mod 256);
                               Int (w / 2 ^ 8 mod 256); Int (w mod 256)]).
Proof.
  assert (H1 : List.length (ipOctets sample) = 4%nat) by reflexivity.
  assert (H2 : maskBits sample = Int 24) by reflexivity.
  assert (H3 : 1 <= 24 <= 32) by lia.
  repeat split; try lia.
  exact (hostMax_decrements_whole_value sample 24 H1 H2 H3).
Defined.

(** *** C4: the stored octets *)

(** C4.  The specification wants every stored octet to be an integer from
    0 to 255, never not-a-number.  [new Calculator({ip: 'a.b.c.d'})]
    returns an instance whose four stored octets are NaN; the length is
    four as claimed ([reachable_invariant]). *)
Theorem reachable_octets_NaN :
  exists c, reachable c /\ ipOctets c = [NaN; NaN; NaN; NaN].
Proof.
  eexists. split.
  - apply (reach_new (Some (mkOptions (Some "a.b.c.d") None))). reflexivity.
  - reflexivity.
Qed.

(** *** C5: when [calculate] throws *)

(** C5.  On every instance a caller can hold, [calculate] throws
    InvalidAddressOrMask exactly when the stored address is empty or the
    stored prefix is 0, it throws nothing else, and with four stored
    octets and a prefix other than 0 it returns. *)
Theorem calculate_throws_iff c :
  reachable c ->
  ((exists c', calculate c = Throw invalidIPorMask c')
   <-> (ipOctets c = [] \/ maskBits c = Int 0))
  /\ (forall m c', calculate c = Throw m c' -> m = invalidIPorMask)
  /\ (List.length (ipOctets c) = 4%nat -> maskBits c <> Int 0 ->
      exists c', calculate c = Normal tt c').
Proof.
  intros Hreach. destruct (reachable_invariant c Hreach) as (Hlen & _ & Hok).
  destruct (calculate_outcome c Hok) as [[Hcond Hthrow] | [Hcond (c1 & Hret)]].
  - repeat split.
    + intros _. exact Hcond.
    + intros _. exists c. exact Hthrow.
    + intros m c' H. rewrite Hthrow in H. injection H as <- _. reflexivity.
    + intros _ Hm. destruct Hcond as [H | H]; [| contradiction].
      rewrite H in Hlen. discriminate.
  - repeat split.
    + intros (c' & H). rewrite Hret in H. discriminate.
    + intros H. contradiction.
    + intros m c' H. rewrite Hret in H. discriminate.
    + intros _ _. exists c1. exact Hret.
Qed.

Lemma calculate_throws_iff_witness :
  reachable defaultInstance
  /\ (((exists c', calculate defaultInstance = Throw invalidIPorMask c')
       <-> (ipOctets defaultInstance = [] \/ maskBits defaultInstance = Int 0))
      /\ (forall m c', calculate defaultInstance = Throw m c' -> m = invalidIPorMask)
      /\ (List.length (ipOctets defaultInstance) = 4%nat ->
          maskBits defaultInstance <> Int 0 ->
          exists c', calculate defaultInstance = Normal tt c')).
Proof.
  assert (H : reachable defaultInstance) by (apply (reach_new None); reflexivity).
  split; [exact H | exact (calculate_throws_iff defaultInstance H)].
Defined.

(** *** C6: a setter that throws *)

(** C6.  When [setIp] or [setMask] throws, on any instance and any
    argument, the instance is as it was before the call: the stored octets
    and the stored prefix are unchanged. *)
Theorem setter_throw_keeps_state c m c' :
  (exists ip, setIp ip c = Throw m c') \/ (exists mask, setMask mask c = Throw m c') ->
  ipOctets c' = ipOctets c /\ maskBits c' = maskBits c /\ c' = c.
Proof.
  intros [(ip0 & H) | (mask0 & H)].
  - apply setIp_throw in H. destruct H as [-> _]. repeat split.
  - apply setMask_throw in H. destruct H as [-> _]. repeat split.
Qed.

Lemma setter_throw_keeps_state_witness :
  ((exists ip, setIp ip sample = Throw invalidIP sample)
   \/ (exists mask, setMask mask sample = Throw invalidIP sample))
  /\ (ipOctets sample = ipOctets sample /\ maskBits sample = maskBits sample /\ sample = sample).
Proof.
  assert (H : (exists ip, setIp ip sample = Throw invalidIP sample)
              \/ (exists mask, setMask mask sample = Throw invalidIP sample)).
  { left. exists "192.168.1.300". reflexivity. }
  split; [exact H | exact (setter_throw_keeps_state sample invalidIP sample H)].
Defined.

(** *** C7: [calculate] twice *)

(** C7.  On every instance a caller can hold whose stored prefix is not 0,
    [calculate] returns, and returns again when called a second time, and
    the four stored octets stay as they were.  With an integer prefix the
    first call keeps the stored prefix and the second call returns the very
    same instance, so all eleven output fields have the same values.  With
    the prefix NaN, which [setMask] lets through, the first call replaces
    the stored prefix by 32 and reports the mask as NaN, and the second call
    reports it as 32: the output fields of the two calls differ. *)
Theorem calculate_twice c :
  reachable c -> maskBits c <> Int 0 ->
  exists c1 c2,
    calculate c = Normal tt c1 /\ calculate c1 = Normal tt c2
    /\ List.length (ipOctets c) = 4%nat /\ ipOctets c1 = ipOctets c
    /\ (maskBits c <> NaN ->
        maskBits c1 = maskBits c /\ c2 = c1
        /\ fields (calculate c1) = fields (calculate c))
    /\ (maskBits c = NaN ->
        maskBits c1 = Int 32 /\ mask c1 = "NaN" /\ mask c2 = "32"
        /\ fields (calculate c1) <> fields (calculate c)).
Proof.
  intros Hreach Hnz.
  destruct (reachable_invariant c Hreach) as (Hlen & _ & Hok).
  assert (Hne : ipOctets c <> []) by (intros E; rewrite E in Hlen; discriminate).
  destruct Hok as [Hnan | (p & Hp & Hr)].
  - exists (calculated (ipOctets c) NaN 32), (calculated (ipOctets c) (Int 32) 32).
    assert (Hsecond : calculate (calculated (ipOctets c) NaN 32)
                      = Normal tt (calculated (ipOctets c) (Int 32) 32)).
    { apply (calculate_prefix (calculated (ipOctets c) NaN 32) 32);
        [exact Hne | reflexivity | lia]. }
    rewrite Hsecond, (calculate_NaN c Hne Hnan).
    split; [reflexivity |]. split; [reflexivity |]. split; [exact Hlen |].
    split; [reflexivity |]. split; [intros H; contradiction |].
    intros _. split; [reflexivity |]. split; [reflexivity |]. split; [reflexivity |].
    cbn [fields calculated mask]. intros E.
    apply (f_equal (fun l => nth 10 l "")) in E. cbn [nth] in E. discriminate E.
  - assert (Hp1 : 1 <= p <= 32).
    { assert (p <> 0) by (intros ->; apply Hnz; exact Hp). lia. }
    exists (calculated (ipOctets c) (Int p) p), (calculated (ipOctets c) (Int p) p).
    assert (Hsecond : calculate (calculated (ipOctets c) (Int p) p)
                      = Normal tt (calculated (ipOctets c) (Int p) p)).
    { apply (calculate_prefix (calculated (ipOctets c) (Int p) p) p);
        [exact Hne | reflexivity | exact Hp1]. }
    rewrite Hsecond, (calculate_prefix c p Hne Hp Hp1).
    split; [reflexivity |]. split; [reflexivity |]. split; [exact Hlen |].
    split; [reflexivity |]. split.
    + intros _. split; [symmetry; exact Hp |]. split; reflexivity.
    + intros E. rewrite E in Hp. discriminate Hp.
Qed.

Lemma calculate_twice_witness :
  reachable (with_maskBits NaN defaultInstance)
  /\ maskBits (with_maskBits NaN defaultInstance) <> Int 0
  /\ exists c1 c2,
       calculate (with_maskBits NaN defaultInstance) = Normal tt c1
       /\ calculate c1 = Normal tt c2
       /\ List.length (ipOctets (with_maskBits NaN defaultInstance)) = 4%nat
       /\ ipOctets c1 = ipOctets (with_maskBits NaN defaultInstance)
       /\ (maskBits (with_maskBits NaN defaultInstance) <> NaN ->
           maskBits c1 = maskBits (with_maskBits NaN defaultInstance) /\ c2 = c1
           /\ fields (calculate c1) = fields (calculate (with_maskBits NaN defaultInstance)))
       /\ (maskBits (with_maskBits NaN defaultInstance) = NaN ->
           maskBits c1 = Int 32 /\ mask c1 = "NaN" /\ mask c2 = "32"
           /\ fields (calculate c1) <> fields (calculate (with_maskBits NaN defaultInstance))).
Proof.
  assert (H1 : reachable (with_maskBits NaN defaultInstance)).
  { apply (reach_setMask defaultInstance (MaskNumber NaN)).
    - apply (reach_new None). reflexivity.
    - reflexivity. }
  assert (H2 : maskBits (with_maskBits NaN defaultInstance) <> Int 0) by discriminate.
  split; [exact H1 |]. split; [exact H2 |].
  exact (calculate_twice (with_maskBits NaN defaultInstance) H1 H2).
Defined.

(** *** C8: the netmask *)

(** C8.  For a stored prefix [p] from 1 to 32, [calculate] returns and the
    netmask it stores is made of four octets which, read as one 32-bit
    value, have bit [i] set exactly when [32 - p <= i]: [p] leading
    one-bits followed by [32 - p] zero-bits. *)
Theorem netmask_leading_ones c p :
  ipOctets c <> [] -> maskBits c = Int p -> 1 <= p <= 32 ->
  exists c' m0 m1 m2 m3,
    calculate c = Normal tt c'
    /\ netmask c' = join "." [Int m0; Int m1; Int m2; Int m3]
    /\ (0 <= m0 <= 255 /\ 0 <= m1 <= 255 /\ 0 <= m2 <= 255 /\ 0 <= m3 <= 255)
    /\ forall i, 0 <= i < 32 ->
         Z.testbit (m0 * 2 ^ 24 + m1 * 2 ^ 16 + m2 * 2 ^ 8 + m3) i = (32 - p <=? i).
Proof.
  intros Hne Hp Hr.
  pose proof (range_all _ _ _ netmaskBitsOk_all p) as Hok.
  unfold netmaskBitsOk in Hok.
  destruct (getNetworkMask (Int p)) as [| [| | m0] [| [| | m1] [| [| | m2] [| [| | m3] [| ? ?]]]]] eqn:Hmask;
    try (discriminate Hok; cbn; lia).
  assert (Hok' := Hok ltac:(cbn; lia)). clear Hok.
  apply andb_true_iff in Hok'. destruct Hok' as [Hbytes Hbits].
  exists (calculated (ipOctets c) (Int p) p), m0, m1, m2, m3.
  split; [apply calculate_prefix; assumption |].
  split; [cbn [calculated netmask]; rewrite Hmask; reflexivity |].
  split.
  - cbn [forallb] in Hbytes.
    repeat (apply andb_true_iff in Hbytes; destruct Hbytes as [? Hbytes]).
    repeat match goal with
    | H : (_ <=? _) = true |- _ => apply Z.leb_le in H
    end. lia.
  - intros i Hi. pose proof (range_all _ _ _ Hbits i ltac:(cbn; lia)) as H.
    apply Bool.eqb_prop in H. exact H.
Qed.

Lemma netmask_leading_ones_witness :
  ipOctets sample <> [] /\ maskBits sample = Int 24 /\ 1 <= 24 <= 32
  /\ exists c' m0 m1 m2 m3,
    calculate sample = Normal tt c'
    /\ netmask c' = join "." [Int m0; Int m1; Int m2; Int m3]
    /\ (0 <= m0 <= 255 /\ 0 <= m1 <= 255 /\ 0 <= m2 <= 255 /\ 0 <= m3 <= 255)
    /\ forall i, 0 <= i < 32 ->
         Z.testbit (m0 * 2 ^ 24 + m1 * 2 ^ 16 + m2 * 2 ^ 8 + m3) i = (32 - 24 <=? i).
Proof.
  assert (H1 : ipOctets sample <> []) by discriminate.
  assert (H2 : maskBits sample = Int 24) by reflexivity.
  assert (H3 : 1 <= 24 <= 32) by lia.
  repeat split; try assumption; try lia.
  exact (netmask_leading_ones sample 24 H1 H2 H3).
Defined.

(** *** C9: a maximum host address of two components *)

(** C9.  For address 0.0.0.1 and mask 16 the broadcast address is
    0.0.255.255 and [hostMax] is "255.254", which has two dot-separated
    components: the decremented value is printed in hexadecimal as "fffe",
    without its leading zeros, and cut into octets from the left. *)
Theorem hostMax_two_components :
  exists c', run "0.0.0.1" (MaskNumber (Int 16)) = Normal tt c'
             /\ broadcast c' = "0.0.255.255"
             /\ subtractFromHex "0000ffff" = "fffe"
             /\ hexaToIpArray "fffe" = [Int 255; Int 254]
             /\ hostMax c' = "255.254"
             /\ split "." (hostMax c') = ["255"; "254"]
             /\ (List.length (split "." (hostMax c')) < 4)%nat.
Proof.
  eexists. split; [vm_compute; reflexivity |].
  repeat split. cbn. lia.
Qed.

(** *** C10: a minimum host address with octet 256 *)

(** C10.  For every address whose last octet is 255, with prefix 32,
    [calculate] returns and [hostMin] is the address with 256 as its last
    dot-separated component. *)
Theorem hostMin_last_octet_256 c a b d :
  ipOctets c = [Int a; Int b; Int d; Int 255] ->
  0 <= a <= 255 -> 0 <= b <= 255 -> 0 <= d <= 255 ->
  maskBits c = Int 32 ->
  exists c', calculate c = Normal tt c'
             /\ hostMin c' = join "." [Int a; Int b; Int d; Int 256]
             /\ last (split "." (hostMin c')) "" = "256".
Proof.
  intros Hoct Ha Hb Hd Hp.
  exists (calculated (ipOctets c) (Int 32) 32).
  split.
  { apply calculate_prefix; [rewrite Hoct; discriminate | exact Hp | lia]. }
  assert (Hmin : hostMin (calculated (ipOctets c) (Int 32) 32)
                 = join "." [Int a; Int b; Int d; Int 256]).
  { rewrite Hoct. cbn [calculated hostMin].
    change (getNetworkMask (Int 32)) with [Int 255; Int 255; Int 255; Int 255].
    cbn [getNetwork at_ nth]. rewrite !band_255 by lia. reflexivity. }
  split; [exact Hmin |]. rewrite Hmin.
  destruct (decimal_byte a Ha) as [Da _], (decimal_byte b Hb) as [Db _],
           (decimal_byte d Hd) as [Dd _].
  unfold join. cbn [map String.concat].
  repeat change (String.append "." ?s) with (String "."%char s).
  rewrite !split_app by assumption. reflexivity.
Qed.

Lemma hostMin_last_octet_256_witness :
  let c := with_maskBits (Int 32) (with_ipOctets [Int 10; Int 1; Int 2; Int 255] blank) in
  ipOctets c = [Int 10; Int 1; Int 2; Int 255]
  /\ 0 <= 10 <= 255 /\ 0 <= 1 <= 255 /\ 0 <= 2 <= 255
  /\ maskBits c = Int 32
  /\ exists c', calculate c = Normal tt c'
                /\ hostMin c' = join "." [Int 10; Int 1; Int 2; Int 256]
                /\ last (split "." (hostMin c')) "" = "256".
Proof.
  intros c.
  assert (H1 : ipOctets c = [Int 10; Int 1; Int 2; Int 255]) by reflexivity.
  assert (Ha : 0 <= 10 <= 255) by lia.
  assert (Hb : 0 <= 1 <= 255) by lia.
  assert (Hd : 0 <= 2 <= 255) by lia.
  assert (H2 : maskBits c = Int 32) by reflexivity.
  repeat split; try lia.
  exact (hostMin_last_octet_256 c 10 1 2 H1 Ha Hb Hd H2).
Defined.

(* ================================================================== *)
(** ** Further properties of the code *)

(** *** Printing an integer and reading it back *)

Lemma digitCharOk_all : forallb digitCharOk (map Z.of_nat (seq 0 36)) = true.
Proof. vm_compute. reflexivity. Qed.

Lemma digitValue_digitChar d : 0 <= d < 36 -> digitValue (digitChar d) = Some d.
Proof.
  intros Hd. pose proof (range_all _ _ _ digitCharOk_all d ltac:(cbn; lia)) as H.
  unfold digitCharOk in H. destruct (digitValue (digitChar d)); [| discriminate].
  apply Z.eqb_eq in H. subst. reflexivity.
Qed.

Lemma digit_not_blank c :
  isDigitChar c = true ->
  isWhiteSpace c = false /\ isChar "-" c = false /\ isChar "+" c = false
  /\ isChar "." c = false.
Proof.
  destruct c as [[] [] [] [] [] [] [] []]; vm_compute; intros H;
    first [discriminate H | repeat split].
Qed.

Lemma isDigitIn_isDigitChar radix c : isDigitIn radix c = true -> isDigitChar c = true.
Proof.
  unfold isDigitIn, isDigitChar. destruct (digitValue c); [reflexivity | discriminate].
Qed.

Lemma list_ascii_app s t :
  list_ascii_of_string (s ++ t) = list_ascii_of_string s ++ list_ascii_of_string t.
Proof. induction s as [| c s IH]; cbn; [reflexivity | rewrite IH; reflexivity]. Qed.

Lemma takeWhile_all {A} (p : A -> bool) l : forallb p l = true -> takeWhile p l = l.
Proof.
  induction l as [| x l IH]; cbn; [reflexivity |]. intros H.
  apply andb_true_iff in H. destruct H as [Hx Hl]. rewrite Hx, (IH Hl). reflexivity.
Qed.

Section Digits.
Variable radix : Z.
Hypothesis radix_range : 2 <= radix <= 36.

Lemma natDigits_digits f : forall n acc,
  0 <= n ->
  forallb (isDigitIn radix) (list_ascii_of_string acc) = true ->
  forallb (isDigitIn radix) (list_ascii_of_string (natDigits f radix n acc)) = true.
Proof.
  induction f as [| f IH]; intros n acc Hn Hacc; cbn [natDigits]; [exact Hacc |].
  assert (Hd : forallb (isDigitIn radix)
                 (list_ascii_of_string (String (digitChar (n mod radix)) acc)) = true).
  { cbn. rewrite Hacc, andb_true_r. unfold isDigitIn.
    pose proof (Z.mod_pos_bound n radix ltac:(lia)) as Hm.
    rewrite digitValue_digitChar by lia. apply Z.ltb_lt. lia. }
  destruct (n / radix =? 0); [exact Hd |].
  apply IH; [apply Z.div_pos; lia | exact Hd].
Qed.

Lemma natDigits_nonempty f : forall n acc,
  acc <> "" -> natDigits f radix n acc <> "".
Proof.
  induction f as [| f IH]; intros n acc Hacc; cbn [natDigits]; [exact Hacc |].
  destruct (n / radix =? 0); [discriminate |]. apply IH. discriminate.
Qed.

Lemma natDigits_value f : forall n acc,
  0 <= n < radix ^ Z.of_nat f ->
  fold_left (digitStep radix) (list_ascii_of_string (natDigits f radix n acc)) 0
  = fold_left (digitStep radix) (list_ascii_of_string acc) n.
Proof.
  induction f as [| f IH]; intros n acc Hn.
  - change (radix ^ Z.of_nat 0) with 1 in Hn. assert (n = 0) by lia. subst n. reflexivity.
  - rewrite Nat2Z.inj_succ, Z.pow_succ_r in Hn by lia.
    pose proof (Z.mod_pos_bound n radix ltac:(lia)) as Hm.
    pose proof (Z.div_mod n radix ltac:(lia)) as Hdm.
    assert (Hstep : fold_left (digitStep radix)
                      (list_ascii_of_string (String (digitChar (n mod radix)) acc)) (n / radix)
                    = fold_left (digitStep radix) (list_ascii_of_string acc) n).
    { cbn [list_ascii_of_string fold_left]. f_equal. unfold digitStep.
      rewrite digitValue_digitChar by lia. lia. }
    cbn [natDigits]. destruct (Z.eqb_spec (n / radix) 0) as [Hq | Hq].
    + rewrite Hq in Hstep. rewrite <- Hstep. reflexivity.
    + rewrite IH; [exact Hstep |].
      split; [apply Z.div_pos; lia |].
      apply Z.div_lt_upper_bound; lia.
Qed.

Lemma digitsOf_fuel_radix n :
  0 <= n -> n < radix ^ Z.of_nat (S (Z.to_nat (Z.log2 n))).
Proof.
  intros Hn. pose proof (Z.log2_nonneg n) as H0.
  rewrite Nat2Z.inj_succ, Z2Nat.id by exact H0.
  destruct (Z.eq_dec n 0) as [-> | Hne].
  - apply Z.pow_pos_nonneg; lia.
  - destruct (Z.log2_spec n ltac:(lia)) as [_ Hup].
    eapply Z.lt_le_trans; [exact Hup |]. apply Z.pow_le_mono_l. lia.
Qed.

(** Printing a non-negative integer and reading the digits back. *)
Lemma digitsOf_round_trip n :
  0 <= n ->
  let l := list_ascii_of_string (digitsOf radix n) in
  l <> [] /\ forallb (isDigitIn radix) l = true /\ digitsValue radix l = n.
Proof.
  intros Hn l. unfold l, digitsOf. repeat split.
  - intros E. apply (natDigits_nonempty (Z.to_nat (Z.log2 n)) (n / radix)
                       (String (digitChar (n mod radix)) "")); [discriminate |].
    cbn [natDigits] in E. destruct (n / radix =? 0); [discriminate E |].
    rewrite <- (string_of_list_ascii_of_string (natDigits _ _ _ _)), E. reflexivity.
  - apply natDigits_digits; [exact Hn | reflexivity].
  - unfold digitsValue. fold (digitStep radix).
    rewrite natDigits_value; [reflexivity |].
    split; [exact Hn | apply digitsOf_fuel_radix, Hn].
Qed.
End Digits.

Lemma parseInt_toString z :
  0 <= z -> isDigitString (toString 10 (Int z)) = true
            /\ parseInt (toString 10 (Int z)) 10 = Int z.
Proof.
  intros Hz. unfold toString. destruct (Z.ltb_spec z 0) as [Hneg | _]; [lia |].
  destruct (digitsOf_round_trip 10 ltac:(lia) z Hz) as (Hne & Hall & Hval).
  split.
  - unfold isDigitString, allDigits. rewrite Hall, andb_true_r.
    destruct (list_ascii_of_string (digitsOf 10 z)); [contradiction | reflexivity].
  - unfold parseInt.
    destruct (list_ascii_of_string (digitsOf 10 z)) as [| c l] eqn:El; [contradiction |].
    assert (Hc : isDigitIn 10 c = true).
    { cbn in Hall. apply andb_true_iff in Hall. apply Hall. }
    destruct (digit_not_blank c (isDigitIn_isDigitChar _ _ Hc)) as (Hw & Hm & Hp & _).
    cbn [trimStart dropWhile]. rewrite Hw. cbn [stripSign]. rewrite Hm, Hp.
    change (10 =? 16) with false. cbv iota.
    rewrite takeWhile_all by exact Hall. rewrite Hval. reflexivity.
Qed.

(** *** The setters *)

Lemma validateMask_cases n msg c :
  validateMask n msg c =
  match n with
  | NaN => Normal NaN c
  | Infinity _ => Throw msg c
  | Int z => if (0 <=? z) && (z <=? 32) then Normal (Int z) c else Throw msg c
  end.
Proof.
  unfold validateMask, throw, ret.
  destruct n as [| [] | z]; cbn [lt gt orb negb]; try reflexivity.
  destruct (Z.ltb_spec z 0), (Z.ltb_spec 32 z), (Z.leb_spec 0 z), (Z.leb_spec z 32);
    cbn; try reflexivity; lia.
Qed.

(** X3.  [setMask] with a number stores it when it is an integer from 0 to 32
    and throws InvalidMask, leaving the instance alone, when it is below 0,
    above 32 or an infinity; NaN passes both comparisons and is stored. *)
Theorem setMask_number_outcome c n :
  setMask (MaskNumber n) c =
  match n with
  | NaN => Normal tt (with_maskBits NaN c)
  | Infinity _ => Throw invalidMask c
  | Int z => if (0 <=? z) && (z <=? 32)
             then Normal tt (with_maskBits (Int z) c)
             else Throw invalidMask c
  end.
Proof.
  unfold setMask. unfold bind at 1, ret. unfold bind. rewrite validateMask_cases.
  destruct n as [| s | z]; try reflexivity.
  destruct ((0 <=? z) && (z <=? 32)); reflexivity.
Qed.

(** X4.  [setMask] with the decimal digits of a non-negative integer stores
    that integer when it is at most 32 and throws InvalidMask otherwise. *)
Theorem setMask_digit_string c z :
  0 <= z ->
  setMask (MaskString (toString 10 (Int z))) c
  = if z <=? 32 then Normal tt (with_maskBits (Int z) c) else Throw invalidMask c.
Proof.
  intros Hz. destruct (parseInt_toString z Hz) as [Hd Hp].
  unfold setMask. rewrite Hd, Hp. unfold bind at 1, ret. unfold bind.
  rewrite validateMask_cases. destruct (Z.leb_spec 0 z); [| lia]. cbn [andb].
  destruct (z <=? 32); reflexivity.
Qed.

Lemma setMask_digit_string_witness :
  0 <= 24
  /\ setMask (MaskString (toString 10 (Int 24))) sample
     = if 24 <=? 32 then Normal tt (with_maskBits (Int 24) sample) else Throw invalidMask sample.
Proof.
  split; [lia | apply (setMask_digit_string sample 24); lia].
Defined.

Lemma with_maskBits_same c : with_maskBits (maskBits c) c = c.
Proof. destruct c; reflexivity. Qed.

(** X5.  Once a prefix from 1 to 32 is stored, [setMask] with any string that
    is not all digits and passes the address validation returns and leaves
    the instance exactly as it was: the octets of the mask are not read. *)
Theorem setMask_dotted_ignored c p s octs :
  maskBits c = Int p -> 1 <= p <= 32 ->
  isDigitString s = false ->
  validateIp s invalidMask c = Normal octs c ->
  setMask (MaskString s) c = Normal tt c.
Proof.
  intros Hp Hr Hs Hv. unfold setMask. rewrite Hs.
  unfold bind at 1. unfold bind at 1. rewrite Hv.
  rewrite getMaskBits_cached.
  - unfold bind. rewrite validateMask_cases, Hp.
    destruct (Z.leb_spec 0 p); [| lia]. destruct (Z.leb_spec p 32); [| lia].
    cbn [andb]. unfold write. rewrite <- Hp, with_maskBits_same. reflexivity.
  - rewrite Hp. cbn. destruct (Z.eqb_spec p 0); [lia | reflexivity].
Qed.

Lemma setMask_dotted_ignored_witness :
  maskBits defaultInstance = Int 32 /\ 1 <= 32 <= 32
  /\ isDigitString "255.0.0.0" = false
  /\ validateIp "255.0.0.0" invalidMask defaultInstance
     = Normal [Int 255; Int 0; Int 0; Int 0] defaultInstance
  /\ setMask (MaskString "255.0.0.0") defaultInstance = Normal tt defaultInstance.
Proof.
  assert (H1 : maskBits defaultInstance = Int 32) by reflexivity.
  assert (H2 : 1 <= 32 <= 32) by lia.
  assert (H3 : isDigitString "255.0.0.0" = false) by reflexivity.
  assert (H4 : validateIp "255.0.0.0" invalidMask defaultInstance
               = Normal [Int 255; Int 0; Int 0; Int 0] defaultInstance) by reflexivity.
  split; [exact H1 |]. split; [exact H2 |]. split; [exact H3 |]. split; [exact H4 |].
  exact (setMask_dotted_ignored defaultInstance 32 "255.0.0.0" _ H1 H2 H3 H4).
Defined.

Lemma isDigitString_dot s t : isDigitString (s ++ String "." t) = false.
Proof.
  unfold isDigitString, allDigits. rewrite list_ascii_app, forallb_app.
  cbn [list_ascii_of_string forallb]. change (isDigitIn 10 ".") with false.
  rewrite andb_false_r. apply andb_false_r.
Qed.

Lemma isDigitString_join a b d e :
  isDigitString (join "." [Int a; Int b; Int d; Int e]) = false.
Proof.
  unfold join. cbn [map String.concat].
  change (String.append "." ?s) with (String "."%char s).
  apply isDigitString_dot.
Qed.

Lemma specPrefix_range a b d e : 0 <= specPrefix [a; b; d; e] <= 32.
Proof.
  assert (H : forall z, 0 <= leadingOnes z <= 8).
  { intros z. unfold leadingOnes. cbn [leadingOnesFrom].
    repeat match goal with |- context [if ?t then _ else _] => destruct t end; lia. }
  pose proof (H a). pose proof (H b). pose proof (H d). pose proof (H e).
  unfold specPrefix. cbn [fold_right]. lia.
Qed.

(** X6.  With no prefix stored (0 or NaN), [setMask] with a dotted mask of
    four octets stores the sum of the leading one-bits of the octets, at
    most 32; the octets are counted one by one, so 255.0.255.0 gives 16. *)
Theorem setMask_dotted_unset c a b d e :
  truthy (maskBits c) = false ->
  0 <= a <= 255 -> 0 <= b <= 255 -> 0 <= d <= 255 -> 0 <= e <= 255 ->
  setMask (MaskString (join "." [Int a; Int b; Int d; Int e])) c
  = Normal tt (with_maskBits (Int (specPrefix [a; b; d; e])) c)
  /\ 0 <= specPrefix [a; b; d; e] <= 32.
Proof.
  intros Ht Ha Hb Hd He. split; [| apply specPrefix_range].
  apply setMask_dotted_fresh; try assumption.
  - apply isDigitString_join.
  - apply ipToOctetArray_join; assumption.
Qed.

Lemma setMask_dotted_unset_witness :
  let c := with_maskBits (Int 0) sample in
  truthy (maskBits c) = false
  /\ 0 <= 255 <= 255 /\ 0 <= 0 <= 255 /\ 0 <= 255 <= 255 /\ 0 <= 0 <= 255
  /\ (setMask (MaskString (join "." [Int 255; Int 0; Int 255; Int 0])) c
      = Normal tt (with_maskBits (Int (specPrefix [255; 0; 255; 0])) c)
      /\ 0 <= specPrefix [255; 0; 255; 0] <= 32).
Proof.
  intros c.
  assert (H0 : truthy (maskBits c) = false) by reflexivity.
  assert (Ha : 0 <= 255 <= 255) by lia. assert (Hb : 0 <= 0 <= 255) by lia.
  split; [exact H0 |]. split; [exact Ha |]. split; [exact Hb |].
  split; [exact Ha |]. split; [exact Hb |].
  exact (setMask_dotted_unset c 255 0 255 0 H0 Ha Hb Ha Hb).
Defined.

Lemma setIp_join c a b d e :
  0 <= a <= 255 -> 0 <= b <= 255 -> 0 <= d <= 255 -> 0 <= e <= 255 ->
  setIp (join "." [Int a; Int b; Int d; Int e]) c
  = Normal tt (with_ipOctets [Int a; Int b; Int d; Int e] c).
Proof.
  intros Ha Hb Hd He. unfold setIp, bind.
  rewrite validateIp_join by assumption. reflexivity.
Qed.

(** X2.  [setIp] with four octets in dotted decimal, then [calculate]: the
    octets are stored and the [ip] field reads the same string back. *)
Theorem setIp_calculate_round_trip c p a b d e :
  maskBits c = Int p -> 1 <= p <= 32 ->
  0 <= a <= 255 -> 0 <= b <= 255 -> 0 <= d <= 255 -> 0 <= e <= 255 ->
  exists c1 c2,
    setIp (join "." [Int a; Int b; Int d; Int e]) c = Normal tt c1
    /\ calculate c1 = Normal tt c2
    /\ ipOctets c2 = [Int a; Int b; Int d; Int e]
    /\ ip c2 = join "." [Int a; Int b; Int d; Int e].
Proof.
  intros Hp Hr Ha Hb Hd He.
  exists (with_ipOctets [Int a; Int b; Int d; Int e] c),
         (calculated [Int a; Int b; Int d; Int e] (Int p) p).
  split; [apply setIp_join; assumption |].
  split; [| split; reflexivity].
  apply (calculate_prefix (with_ipOctets [Int a; Int b; Int d; Int e] c) p);
    [discriminate | exact Hp | exact Hr].
Qed.

Lemma setIp_calculate_round_trip_witness :
  maskBits sample = Int 24 /\ 1 <= 24 <= 32
  /\ 0 <= 10 <= 255 /\ 0 <= 0 <= 255 /\ 0 <= 0 <= 255 /\ 0 <= 129 <= 255
  /\ exists c1 c2,
    setIp (join "." [Int 10; Int 0; Int 0; Int 129]) sample = Normal tt c1
    /\ calculate c1 = Normal tt c2
    /\ ipOctets c2 = [Int 10; Int 0; Int 0; Int 129]
    /\ ip c2 = join "." [Int 10; Int 0; Int 0; Int 129].
Proof.
  assert (H1 : maskBits sample = Int 24) by reflexivity.
  assert (H2 : 1 <= 24 <= 32) by lia.
  assert (Ha : 0 <= 10 <= 255) by lia. assert (Hb : 0 <= 0 <= 255) by lia.
  assert (He : 0 <= 129 <= 255) by lia.
  split; [exact H1 |]. split; [exact H2 |]. split; [exact Ha |]. split; [exact Hb |].
  split; [exact Hb |]. split; [exact He |].
  exact (setIp_calculate_round_trip sample 24 10 0 0 129 H1 H2 Ha Hb Hb He).
Defined.

(** X7.  The constructor with an address of four octets and a dotted mask
    stores the address and the sum of the leading one-bits of the mask's
    octets: the field initialiser leaves the prefix at 0, so the mask is
    counted. *)
Theorem new_with_dotted_mask a0 a1 a2 a3 m0 m1 m2 m3 :
  0 <= a0 <= 255 -> 0 <= a1 <= 255 -> 0 <= a2 <= 255 -> 0 <= a3 <= 255 ->
  0 <= m0 <= 255 -> 0 <= m1 <= 255 -> 0 <= m2 <= 255 -> 0 <= m3 <= 255 ->
  new (Some (mkOptions (Some (join "." [Int a0; Int a1; Int a2; Int a3]))
                       (Some (MaskString (join "." [Int m0; Int m1; Int m2; Int m3])))))
  = Normal tt (with_maskBits (Int (specPrefix [m0; m1; m2; m3]))
                 (with_ipOctets [Int a0; Int a1; Int a2; Int a3] blank)).
Proof.
  intros A0 A1 A2 A3 M0 M1 M2 M3. unfold new. unfold bind.
  rewrite setIp_join by assumption.
  apply setMask_dotted_fresh; try assumption.
  - reflexivity.
  - apply isDigitString_join.
  - apply ipToOctetArray_join; assumption.
Qed.

Lemma new_with_dotted_mask_witness :
  0 <= 192 <= 255 /\ 0 <= 168 <= 255 /\ 0 <= 1 <= 255 /\ 0 <= 1 <= 255
  /\ 0 <= 255 <= 255 /\ 0 <= 255 <= 255 /\ 0 <= 127 <= 255 /\ 0 <= 0 <= 255
  /\ new (Some (mkOptions (Some (join "." [Int 192; Int 168; Int 1; Int 1]))
                          (Some (MaskString (join "." [Int 255; Int 255; Int 127; Int 0])))))
     = Normal tt (with_maskBits (Int (specPrefix [255; 255; 127; 0]))
                    (with_ipOctets [Int 192; Int 168; Int 1; Int 1] blank)).
Proof.
  assert (A0 : 0 <= 192 <= 255) by lia. assert (A1 : 0 <= 168 <= 255) by lia.
  assert (A2 : 0 <= 1 <= 255) by lia. assert (M0 : 0 <= 255 <= 255) by lia.
  assert (M2 : 0 <= 127 <= 255) by lia. assert (M3 : 0 <= 0 <= 255) by lia.
  split; [exact A0 |]. split; [exact A1 |]. split; [exact A2 |]. split; [exact A2 |].
  split; [exact M0 |]. split; [exact M0 |]. split; [exact M2 |]. split; [exact M3 |].
  exact (new_with_dotted_mask 192 168 1 1 255 255 127 0 A0 A1 A2 A2 M0 M0 M2 M3).
Defined.

(** X8.  [setMask] accepts the prefix 0, as a number and as the string "0",
    and [calculate] then throws InvalidAddressOrMask without touching the
    instance. *)
Theorem prefix_zero_accepted_then_rejected c :
  setMask (MaskNumber (Int 0)) c = Normal tt (with_maskBits (Int 0) c)
  /\ setMask (MaskString "0") c = Normal tt (with_maskBits (Int 0) c)
  /\ calculate (with_maskBits (Int 0) c) = Throw invalidIPorMask (with_maskBits (Int 0) c).
Proof.
  repeat split.
  apply calculate_throws. right. reflexivity.
Qed.

(** X9.  [setMask(NaN)] returns and stores NaN; [calculate] then returns,
    reports the mask as "NaN", computes with the netmask 255.255.255.255
    and leaves 32 as the stored prefix. *)
Theorem prefix_NaN_calculates_as_32 c :
  ipOctets c <> [] ->
  exists c1 c2,
    setMask (MaskNumber NaN) c = Normal tt c1
    /\ maskBits c1 = NaN
    /\ calculate c1 = Normal tt c2
    /\ maskBits c2 = Int 32
    /\ mask c2 = "NaN"
    /\ netmask c2 = "255.255.255.255"
    /\ maxHosts c2 = "-1".
Proof.
  intros Hne. exists (with_maskBits NaN c), (calculated (ipOctets c) NaN 32).
  split; [reflexivity |]. split; [reflexivity |].
  split; [apply (calculate_NaN (with_maskBits NaN c)); [exact Hne | reflexivity] |].
  repeat split.
Qed.

Lemma prefix_NaN_calculates_as_32_witness :
  ipOctets sample <> []
  /\ exists c1 c2,
    setMask (MaskNumber NaN) sample = Normal tt c1
    /\ maskBits c1 = NaN
    /\ calculate c1 = Normal tt c2
    /\ maskBits c2 = Int 32
    /\ mask c2 = "NaN"
    /\ netmask c2 = "255.255.255.255"
    /\ maxHosts c2 = "-1".
Proof.
  assert (H : ipOctets sample <> []) by discriminate.
  split; [exact H | exact (prefix_NaN_calculates_as_32 sample H)].
Defined.

(** *** Netmask, wildcard, network and broadcast address *)

Lemma octetPairOk_all : forallb (fun a => forallb (octetPairOk a) bytes) bytes = true.
Proof. vm_compute. reflexivity. Qed.

Lemma octetPair a m :
  0 <= a <= 255 -> 0 <= m <= 255 ->
  Z.land (Z.lnot m) 255 = 255 - m
  /\ Z.lor (Z.land a m) (255 - m) = Z.land a m + (255 - m)
  /\ Z.land a m <= a <= Z.land a m + (255 - m)
  /\ Z.land a m <= m
  /\ Z.land a m + (255 - m) <= 255
  /\ Z.land (Z.land a m + (255 - m)) m = Z.land a m.
Proof.
  intros Ha Hm.
  pose proof (bytes_all _ octetPairOk_all a Ha) as H. cbv beta in H.
  pose proof (bytes_all _ H m Hm) as H'. unfold octetPairOk in H'. cbv zeta in H'.
  repeat (apply andb_true_iff in H'; destruct H' as [H' ?]).
  repeat match goal with
  | E : (_ =? _) = true |- _ => apply Z.eqb_eq in E
  | E : (_ <=? _) = true |- _ => apply Z.leb_le in E
  end.
  repeat split; assumption.
Qed.

Lemma band_Int a m :
  0 <= a <= 255 -> 0 <= m <= 255 -> band (Int a) (Int m) = Int (Z.land a m).
Proof. intros Ha Hm. unfold band. rewrite !ToInt32_byte by assumption. reflexivity. Qed.

Lemma wildcard_octet m :
  0 <= m <= 255 -> band (bnot (Int m)) (Int 255) = Int (255 - m).
Proof.
  intros Hm. unfold band, bnot. cbn [ToInt32].
  rewrite (wrap32_small m), (wrap32_small 255) by (cbn; lia).
  rewrite (wrap32_small (Z.lnot m)) by (unfold Z.lnot; cbn; lia).
  f_equal. apply (octetPair 0 m); lia.
Qed.

Lemma bor_Int n w :
  0 <= n <= 255 -> 0 <= w <= 255 -> bor (Int n) (Int w) = Int (Z.lor n w).
Proof. intros Hn Hw. unfold bor. rewrite !ToInt32_byte by assumption. reflexivity. Qed.

(** The netmask of any prefix value is four octets, and the wildcard is
    their complement to 255. *)
Lemma mask_octets mask :
  exists m0 m1 m2 m3,
    (0 <= m0 <= 255 /\ 0 <= m1 <= 255 /\ 0 <= m2 <= 255 /\ 0 <= m3 <= 255)
    /\ getNetworkMask mask = [Int m0; Int m1; Int m2; Int m3]
    /\ getInvertedMask (getNetworkMask mask)
       = [Int (255 - m0); Int (255 - m1); Int (255 - m2); Int (255 - m3)].
Proof.
  unfold getNetworkMask. set (x := shl (Int 4294967295) _).
  destruct (band_byte (sar x (Int 24)) (Int 255) isByte_255) as (m0 & E0 & R0).
  destruct (band_byte (sar x (Int 16)) (Int 255) isByte_255) as (m1 & E1 & R1).
  destruct (band_byte (sar x (Int 8)) (Int 255) isByte_255) as (m2 & E2 & R2).
  destruct (band_byte x (Int 255) isByte_255) as (m3 & E3 & R3).
  rewrite E0, E1, E2, E3. exists m0, m1, m2, m3.
  split; [repeat split; lia |]. split; [reflexivity |].
  unfold getInvertedMask. cbn [at_ nth]. rewrite !wildcard_octet by assumption. reflexivity.
Qed.

(** With an address of four octets, so are the network and the broadcast
    address: the octet of the address masked, and that plus the wildcard. *)
Lemma address_octets a0 a1 a2 a3 m0 m1 m2 m3 :
  0 <= a0 <= 255 -> 0 <= a1 <= 255 -> 0 <= a2 <= 255 -> 0 <= a3 <= 255 ->
  0 <= m0 <= 255 -> 0 <= m1 <= 255 -> 0 <= m2 <= 255 -> 0 <= m3 <= 255 ->
  let ip := [Int a0; Int a1; Int a2; Int a3] in
  let netmask := [Int m0; Int m1; Int m2; Int m3] in
  getNetwork ip netmask
  = [Int (Z.land a0 m0); Int (Z.land a1 m1); Int (Z.land a2 m2); Int (Z.land a3 m3)]
  /\ getBroadcast (getNetwork ip netmask)
       [Int (255 - m0); Int (255 - m1); Int (255 - m2); Int (255 - m3)]
     = [Int (Z.land a0 m0 + (255 - m0)); Int (Z.land a1 m1 + (255 - m1));
        Int (Z.land a2 m2 + (255 - m2)); Int (Z.land a3 m3 + (255 - m3))].
Proof.
  intros A0 A1 A2 A3 M0 M1 M2 M3 ip netmask.
  assert (Hn : getNetwork ip netmask
    = [Int (Z.land a0 m0); Int (Z.land a1 m1); Int (Z.land a2 m2); Int (Z.land a3 m3)]).
  { unfold getNetwork, ip, netmask. cbn [at_ nth]. rewrite !band_Int by assumption. reflexivity. }
  split; [exact Hn |]. rewrite Hn. unfold getBroadcast. cbn [at_ nth].
  pose proof (land_byte a0 m0 M0). pose proof (land_byte a1 m1 M1).
  pose proof (land_byte a2 m2 M2). pose proof (land_byte a3 m3 M3).
  rewrite !bor_Int by lia.
  destruct (octetPair a0 m0 A0 M0) as (_ & -> & _).
  destruct (octetPair a1 m1 A1 M1) as (_ & -> & _).
  destruct (octetPair a2 m2 A2 M2) as (_ & -> & _).
  destruct (octetPair a3 m3 A3 M3) as (_ & -> & _).
  reflexivity.
Qed.

(** X11.  The netmask and the wildcard that [calculate] stores are four
    octets each, and every wildcard octet is 255 minus the netmask octet. *)
Theorem wildcard_complements_netmask c p :
  ipOctets c <> [] -> maskBits c = Int p -> 1 <= p <= 32 ->
  exists c' m0 m1 m2 m3,
    calculate c = Normal tt c'
    /\ (0 <= m0 <= 255 /\ 0 <= m1 <= 255 /\ 0 <= m2 <= 255 /\ 0 <= m3 <= 255)
    /\ netmask c' = join "." [Int m0; Int m1; Int m2; Int m3]
    /\ wildcard c' = join "." [Int (255 - m0); Int (255 - m1); Int (255 - m2); Int (255 - m3)].
Proof.
  intros Hne Hp Hr.
  destruct (mask_octets (Int p)) as (m0 & m1 & m2 & m3 & Hm & Enm & Ew).
  exists (calculated (ipOctets c) (Int p) p), m0, m1, m2, m3.
  split; [apply calculate_prefix; assumption |]. split; [exact Hm |].
  cbn [calculated netmask wildcard]. rewrite Ew, Enm. split; reflexivity.
Qed.

Lemma wildcard_complements_netmask_witness :
  ipOctets sample <> [] /\ maskBits sample = Int 24 /\ 1 <= 24 <= 32
  /\ exists c' m0 m1 m2 m3,
    calculate sample = Normal tt c'
    /\ (0 <= m0 <= 255 /\ 0 <= m1 <= 255 /\ 0 <= m2 <= 255 /\ 0 <= m3 <= 255)
    /\ netmask c' = join "." [Int m0; Int m1; Int m2; Int m3]
    /\ wildcard c' = join "." [Int (255 - m0); Int (255 - m1); Int (255 - m2); Int (255 - m3)].
Proof.
  assert (H1 : ipOctets sample <> []) by discriminate.
  assert (H2 : maskBits sample = Int 24) by reflexivity.
  assert (H3 : 1 <= 24 <= 32) by lia.
  split; [exact H1 |]. split; [exact H2 |]. split; [exact H3 |].
  exact (wildcard_complements_netmask sample 24 H1 H2 H3).
Defined.

(** X12.  For an address of four octets, every octet of the network address
    is at most the octet of the address, which is at most the octet of the
    broadcast address; all of them lie between 0 and 255. *)
Theorem network_and_broadcast_bracket c p a0 a1 a2 a3 :
  ipOctets c = [Int a0; Int a1; Int a2; Int a3] ->
  0 <= a0 <= 255 -> 0 <= a1 <= 255 -> 0 <= a2 <= 255 -> 0 <= a3 <= 255 ->
  maskBits c = Int p -> 1 <= p <= 32 ->
  exists c' n0 n1 n2 n3 b0 b1 b2 b3,
    calculate c = Normal tt c'
    /\ network c' = join "." [Int n0; Int n1; Int n2; Int n3]
    /\ broadcast c' = join "." [Int b0; Int b1; Int b2; Int b3]
    /\ (0 <= n0 <= a0 /\ a0 <= b0 <= 255)
    /\ (0 <= n1 <= a1 /\ a1 <= b1 <= 255)
    /\ (0 <= n2 <= a2 /\ a2 <= b2 <= 255)
    /\ (0 <= n3 <= a3 /\ a3 <= b3 <= 255).
Proof.
  intros Hoct A0 A1 A2 A3 Hp Hr.
  destruct (mask_octets (Int p)) as (m0 & m1 & m2 & m3 & (M0 & M1 & M2 & M3) & Enm & Ew).
  destruct (address_octets a0 a1 a2 a3 m0 m1 m2 m3 A0 A1 A2 A3 M0 M1 M2 M3) as [En Eb].
  exists (calculated (ipOctets c) (Int p) p).
  exists (Z.land a0 m0), (Z.land a1 m1), (Z.land a2 m2), (Z.land a3 m3).
  exists (Z.land a0 m0 + (255 - m0)), (Z.land a1 m1 + (255 - m1)),
         (Z.land a2 m2 + (255 - m2)), (Z.land a3 m3 + (255 - m3)).
  split; [apply calculate_prefix; [rewrite Hoct; discriminate | exact Hp | exact Hr] |].
  cbn [calculated network broadcast]. rewrite Ew, Enm, Hoct, Eb, En.
  split; [reflexivity |]. split; [reflexivity |].
  pose proof (land_byte a0 m0 M0). pose proof (land_byte a1 m1 M1).
  pose proof (land_byte a2 m2 M2). pose proof (land_byte a3 m3 M3).
  destruct (octetPair a0 m0 A0 M0) as (_ & _ & ? & _ & ? & _).
  destruct (octetPair a1 m1 A1 M1) as (_ & _ & ? & _ & ? & _).
  destruct (octetPair a2 m2 A2 M2) as (_ & _ & ? & _ & ? & _).
  destruct (octetPair a3 m3 A3 M3) as (_ & _ & ? & _ & ? & _).
  repeat split; lia.
Qed.

Lemma network_and_broadcast_bracket_witness :
  ipOctets sample = [Int 192; Int 168; Int 1; Int 1]
  /\ 0 <= 192 <= 255 /\ 0 <= 168 <= 255 /\ 0 <= 1 <= 255 /\ 0 <= 1 <= 255
  /\ maskBits sample = Int 24 /\ 1 <= 24 <= 32
  /\ exists c' n0 n1 n2 n3 b0 b1 b2 b3,
    calculate sample = Normal tt c'
    /\ network c' = join "." [Int n0; Int n1; Int n2; Int n3]
    /\ broadcast c' = join "." [Int b0; Int b1; Int b2; Int b3]
    /\ (0 <= n0 <= 192 /\ 192 <= b0 <= 255)
    /\ (0 <= n1 <= 168 /\ 168 <= b1 <= 255)
    /\ (0 <= n2 <= 1 /\ 1 <= b2 <= 255)
    /\ (0 <= n3 <= 1 /\ 1 <= b3 <= 255).
Proof.
  assert (H0 : ipOctets sample = [Int 192; Int 168; Int 1; Int 1]) by reflexivity.
  assert (A0 : 0 <= 192 <= 255) by lia. assert (A1 : 0 <= 168 <= 255) by lia.
  assert (A2 : 0 <= 1 <= 255) by lia.
  assert (H2 : maskBits sample = Int 24) by reflexivity.
  assert (H3 : 1 <= 24 <= 32) by lia.
  split; [exact H0 |]. split; [exact A0 |]. split; [exact A1 |]. split; [exact A2 |].
  split; [exact A2 |]. split; [exact H2 |]. split; [exact H3 |].
  exact (network_and_broadcast_bracket sample 24 192 168 1 1 H0 A0 A1 A2 A2 H2 H3).
Defined.

Lemma masked_octet x m :
  0 <= m <= 255 ->
  let n := band x (Int m) in
  let b := bor n (Int (255 - m)) in
  band n (Int m) = n /\ bor b (Int (255 - m)) = b /\ band b (Int m) = n.
Proof.
  intros Hm n b.
  assert (Hw : 0 <= 255 - m <= 255) by lia.
  assert (Hn : n = Int (Z.land (ToInt32 x) m)).
  { unfold n, band. rewrite (ToInt32_byte m Hm). reflexivity. }
  pose proof (land_byte (ToInt32 x) m Hm) as Hnb.
  assert (Hb : b = Int (Z.lor (Z.land (ToInt32 x) m) (255 - m))).
  { unfold b. rewrite Hn. apply bor_Int; assumption. }
  pose proof (lor_byte _ _ Hnb Hw) as Hbb.
  assert (Hdisj : Z.land (255 - m) m = 0).
  { destruct (octetPair 0 m ltac:(lia) Hm) as (<- & _).
    rewrite <- Z.land_assoc, (Z.land_comm 255 m), Z.land_assoc.
    rewrite (Z.land_comm (Z.lnot m) m), Z.land_lnot_diag. apply Z.land_0_l. }
  rewrite Hb, Hn. repeat split.
  - rewrite band_Int by assumption. rewrite <- Z.land_assoc, Z.land_diag. reflexivity.
  - rewrite bor_Int by assumption. rewrite <- Z.lor_assoc, Z.lor_diag. reflexivity.
  - rewrite band_Int by assumption.
    rewrite Z.land_lor_distr_l, Hdisj, Z.lor_0_r, <- Z.land_assoc, Z.land_diag. reflexivity.
Qed.

(** X13.  For any address array and any prefix value: masking the network
    address again gives the network address, or-ing the wildcard into the
    broadcast address again gives the broadcast address, and masking the
    broadcast address gives the network address. *)
Theorem masking_is_idempotent ip mask :
  let netmask := getNetworkMask mask in
  let wildcard := getInvertedMask netmask in
  let network := getNetwork ip netmask in
  let broadcast := getBroadcast network wildcard in
  getNetwork network netmask = network
  /\ getBroadcast broadcast wildcard = broadcast
  /\ getNetwork broadcast netmask = network.
Proof.
  intros netmask wildcard network broadcast.
  destruct (mask_octets mask) as (m0 & m1 & m2 & m3 & (M0 & M1 & M2 & M3) & Enm & Ew).
  unfold broadcast, network, wildcard, netmask. rewrite Ew, Enm.
  unfold getBroadcast, getNetwork. cbn [at_ nth].
  destruct (masked_octet (at_ ip 0) m0 M0) as (-> & -> & ->).
  destruct (masked_octet (at_ ip 1) m1 M1) as (-> & -> & ->).
  destruct (masked_octet (at_ ip 2) m2 M2) as (-> & -> & ->).
  destruct (masked_octet (at_ ip 3) m3 M3) as (-> & -> & ->).
  repeat split.
Qed.

(** *** Class and counts *)

Lemma classOk_all : forallb classOk bytes = true.
Proof. vm_compute. reflexivity. Qed.

(** X10.  The class letter follows the first octet: 0-127 A, 128-191 B,
    192-223 C, 224-239 D, 240-255 E. *)
Theorem ipv4Class_by_first_octet c p a rest :
  ipOctets c = Int a :: rest -> 0 <= a <= 255 ->
  maskBits c = Int p -> 1 <= p <= 32 ->
  exists c', calculate c = Normal tt c' /\ ipv4Class c' = classOf a.
Proof.
  intros Hoct Ha Hp Hr. exists (calculated (ipOctets c) (Int p) p).
  split; [apply calculate_prefix; [rewrite Hoct; discriminate | exact Hp | exact Hr] |].
  cbn [calculated ipv4Class]. rewrite Hoct.
  change (getIpV4Class (Int a :: rest)) with (getIpV4Class [Int a]).
  apply String.eqb_eq. apply (bytes_all _ classOk_all a Ha).
Qed.

Lemma ipv4Class_by_first_octet_witness :
  ipOctets sample = Int 192 :: [Int 168; Int 1; Int 1] /\ 0 <= 192 <= 255
  /\ maskBits sample = Int 24 /\ 1 <= 24 <= 32
  /\ exists c', calculate sample = Normal tt c' /\ ipv4Class c' = classOf 192.
Proof.
  assert (H0 : ipOctets sample = Int 192 :: [Int 168; Int 1; Int 1]) by reflexivity.
  assert (A0 : 0 <= 192 <= 255) by lia.
  assert (H2 : maskBits sample = Int 24) by reflexivity.
  assert (H3 : 1 <= 24 <= 32) by lia.
  split; [exact H0 |]. split; [exact A0 |]. split; [exact H2 |]. split; [exact H3 |].
  exact (ipv4Class_by_first_octet sample 24 192 _ H0 A0 H2 H3).
Defined.

(** X17.  For a stored prefix [p] from 1 to 32, [maxNetworks] is [2^p],
    [maxHosts] is [2^(32-p) - 2] and [mask] is [p], in decimal; [maxHosts]
    is "0" for 31 and "-1" for 32. *)
Theorem host_and_network_counts c p :
  ipOctets c <> [] -> maskBits c = Int p -> 1 <= p <= 32 ->
  exists c', calculate c = Normal tt c'
             /\ maxNetworks c' = toString 10 (Int (2 ^ p))
             /\ maxHosts c' = toString 10 (Int (2 ^ (32 - p) - 2))
             /\ mask c' = toString 10 (Int p)
             /\ (p = 31 -> maxHosts c' = "0")
             /\ (p = 32 -> maxHosts c' = "-1").
Proof.
  intros Hne Hp Hr. exists (calculated (ipOctets c) (Int p) p).
  split; [apply calculate_prefix; assumption |].
  cbn [calculated maxNetworks maxHosts mask].
  repeat split; intros ->; reflexivity.
Qed.

Lemma host_and_network_counts_witness :
  ipOctets sample <> [] /\ maskBits sample = Int 24 /\ 1 <= 24 <= 32
  /\ exists c', calculate sample = Normal tt c'
             /\ maxNetworks c' = toString 10 (Int (2 ^ 24))
             /\ maxHosts c' = toString 10 (Int (2 ^ (32 - 24) - 2))
             /\ mask c' = toString 10 (Int 24)
             /\ (24 = 31 -> maxHosts c' = "0")
             /\ (24 = 32 -> maxHosts c' = "-1").
Proof.
  assert (H1 : ipOctets sample <> []) by discriminate.
  assert (H2 : maskBits sample = Int 24) by reflexivity.
  assert (H3 : 1 <= 24 <= 32) by lia.
  split; [exact H1 |]. split; [exact H2 |]. split; [exact H3 |].
  exact (host_and_network_counts sample 24 H1 H2 H3).
Defined.

(** *** The host range *)

Lemma lastOctetEven_all : forallb lastOctetEven (map Z.of_nat (seq 1 31)) = true.
Proof. vm_compute. reflexivity. Qed.

Lemma netmask_last_octet p m0 m1 m2 m3 :
  1 <= p <= 31 -> getNetworkMask (Int p) = [Int m0; Int m1; Int m2; Int m3] -> m3 <= 254.
Proof.
  intros Hp E. pose proof (range_all _ _ _ lastOctetEven_all p ltac:(cbn; lia)) as H.
  unfold lastOctetEven in H. rewrite E in H. apply Z.leb_le, H.
Qed.



Lemma octets_of_decrement b0 b1 b2 b3 :
  0 <= b0 <= 255 -> 0 <= b1 <= 255 -> 0 <= b2 <= 255 -> 1 <= b3 <= 255 ->
  let w := b0 * 16777216 + b1 * 65536 + b2 * 256 + b3 - 1 in
  w / 16777216 = b0 /\ (w / 65536) mod 256 = b1 /\ (w / 256) mod 256 = b2 /\ w mod 256 = b3 - 1.
Proof.
  intros H0 H1 H2 H3 w.
  assert (E3 : w mod 256 = b3 - 1).
  { unfold w. symmetry. apply (Z.mod_unique _ _ (b0 * 65536 + b1 * 256 + b2)); lia. }
  assert (Q3 : w / 256 = b0 * 65536 + b1 * 256 + b2).
  { unfold w. symmetry. apply (Z.div_unique _ _ _ (b3 - 1)); lia. }
  assert (Q2 : w / 65536 = b0 * 256 + b1).
  { unfold w. symmetry. apply (Z.div_unique _ _ _ (b2 * 256 + b3 - 1)); lia. }
  assert (Q1 : w / 16777216 = b0).
  { unfold w. symmetry. apply (Z.div_unique _ _ _ (b1 * 65536 + b2 * 256 + b3 - 1)); lia. }
  rewrite Q1, Q2, Q3. repeat split; try assumption.
  - symmetry. apply (Z.mod_unique _ _ b0); lia.
  - symmetry. apply (Z.mod_unique _ _ (b0 * 256 + b1)); lia.
Qed.

(** X15.  For an address whose first octet is at least 16 and a prefix from 1
    to 31, [hostMax] is the broadcast address with its last octet, which is
    at least 1, decremented. *)
Theorem hostMax_usual c p a0 a1 a2 a3 :
  ipOctets c = [Int a0; Int a1; Int a2; Int a3] ->
  16 <= a0 <= 255 -> 0 <= a1 <= 255 -> 0 <= a2 <= 255 -> 0 <= a3 <= 255 ->
  maskBits c = Int p -> 1 <= p <= 31 ->
  exists c' b0 b1 b2 b3,
    calculate c = Normal tt c'
    /\ broadcast c' = join "." [Int b0; Int b1; Int b2; Int b3]
    /\ hostMax c' = join "." [Int b0; Int b1; Int b2; Int (b3 - 1)]
    /\ (16 <= b0 <= 255 /\ 0 <= b1 <= 255 /\ 0 <= b2 <= 255 /\ 1 <= b3 <= 255).
Proof.
  intros Hoct A0 A1 A2 A3 Hp Hr.
  destruct (mask_octets (Int p)) as (m0 & m1 & m2 & m3 & (M0 & M1 & M2 & M3) & Enm & Ew).
  destruct (address_octets a0 a1 a2 a3 m0 m1 m2 m3 ltac:(lia) A1 A2 A3 M0 M1 M2 M3) as [En Eb].
  pose proof (netmask_last_octet p m0 m1 m2 m3 Hr Enm) as Hlast.
  pose proof (land_byte a0 m0 M0) as L0. pose proof (land_byte a1 m1 M1) as L1.
  pose proof (land_byte a2 m2 M2) as L2. pose proof (land_byte a3 m3 M3) as L3.
  destruct (octetPair a0 m0 ltac:(lia) M0) as (_ & _ & B0 & _ & U0 & _).
  destruct (octetPair a1 m1 A1 M1) as (_ & _ & _ & _ & U1 & _).
  destruct (octetPair a2 m2 A2 M2) as (_ & _ & _ & _ & U2 & _).
  destruct (octetPair a3 m3 A3 M3) as (_ & _ & _ & _ & U3 & _).
  set (b0 := Z.land a0 m0 + (255 - m0)) in *. set (b1 := Z.land a1 m1 + (255 - m1)) in *.
  set (b2 := Z.land a2 m2 + (255 - m2)) in *. set (b3 := Z.land a3 m3 + (255 - m3)) in *.
  assert (R0 : 16 <= b0 <= 255) by lia. assert (R1 : 0 <= b1 <= 255) by lia.
  assert (R2 : 0 <= b2 <= 255) by lia. assert (R3 : 1 <= b3 <= 255) by lia.
  exists (calculated (ipOctets c) (Int p) p), b0, b1, b2, b3.
  split; [apply calculate_prefix; [rewrite Hoct; discriminate | exact Hp | lia] |].
  cbn [calculated hostMax broadcast]. rewrite Ew, Enm, Hoct, Eb.
  split; [reflexivity |]. split; [| repeat split; lia].
  rewrite hostMaxOf_decrement by lia.
  clearbody b0 b1 b2 b3. change (2 ^ 24) with 16777216. change (2 ^ 16) with 65536.
  change (2 ^ 8) with 256.
  destruct (octets_of_decrement b0 b1 b2 b3 ltac:(lia) R1 R2 R3) as (-> & -> & -> & ->).
  reflexivity.
Qed.

Lemma hostMax_usual_witness :
  ipOctets sample = [Int 192; Int 168; Int 1; Int 1]
  /\ 16 <= 192 <= 255 /\ 0 <= 168 <= 255 /\ 0 <= 1 <= 255 /\ 0 <= 1 <= 255
  /\ maskBits sample = Int 24 /\ 1 <= 24 <= 31
  /\ exists c' b0 b1 b2 b3,
    calculate sample = Normal tt c'
    /\ broadcast c' = join "." [Int b0; Int b1; Int b2; Int b3]
    /\ hostMax c' = join "." [Int b0; Int b1; Int b2; Int (b3 - 1)]
    /\ (16 <= b0 <= 255 /\ 0 <= b1 <= 255 /\ 0 <= b2 <= 255 /\ 1 <= b3 <= 255).
Proof.
  assert (H0 : ipOctets sample = [Int 192; Int 168; Int 1; Int 1]) by reflexivity.
  assert (A0 : 16 <= 192 <= 255) by lia. assert (A1 : 0 <= 168 <= 255) by lia.
  assert (A2 : 0 <= 1 <= 255) by lia.
  assert (H2 : maskBits sample = Int 24) by reflexivity.
  assert (H3 : 1 <= 24 <= 31) by lia.
  split; [exact H0 |]. split; [exact A0 |]. split; [exact A1 |]. split; [exact A2 |].
  split; [exact A2 |]. split; [exact H2 |]. split; [exact H3 |].
  exact (hostMax_usual sample 24 192 168 1 1 H0 A0 A1 A2 A2 H2 H3).
Defined.

Lemma digitsOf_7 w :
  16 ^ 6 <= w < 16 ^ 7 ->
  digitsOf 16 w =
  String (digitChar (w / 16 / 16 / 16 / 16 / 16 / 16 mod 16))
  (String (digitChar (w / 16 / 16 / 16 / 16 / 16 mod 16))
  (String (digitChar (w / 16 / 16 / 16 / 16 mod 16))
  (String (digitChar (w / 16 / 16 / 16 mod 16))
  (String (digitChar (w / 16 / 16 mod 16))
  (String (digitChar (w / 16 mod 16))
  (String (digitChar (w mod 16)) "")))))).
Proof.
  intros Hw. change (16 ^ 6) with 16777216 in Hw. change (16 ^ 7) with 268435456 in Hw.
  unfold digitsOf.
  rewrite (natDigits_enough _ 6).
  - cbn [natDigits].
    repeat match goal with
    | |- context [?q =? 0] => destruct (Z.eqb_spec q 0); [dlia |]
    end.
    destruct (_ =? 0); reflexivity.
  - split; [lia | apply digitsOf_fuel; lia].
  - change (16 ^ Z.of_nat 7) with 268435456. lia.
Qed.

Lemma parseInt_nibble h :
  0 <= h <= 15 -> parseInt (String (digitChar h) "") 16 = Int h.
Proof.
  intros Hh. destruct (hexDigit h Hh) as (V & D & W & _ & M & P & _).
  unfold parseInt. cbn [list_ascii_of_string trimStart dropWhile].
  rewrite W. cbn [stripSign]. rewrite M, P. cbn [Z.eqb Pos.eqb strip0x takeWhile].
  rewrite D. unfold digitsValue. cbn [fold_left signed]. rewrite V. reflexivity.
Qed.

Lemma chunks_7 c6 c5 c4 c3 c2 c1 c0 :
  isLineTerminator c6 = false -> isLineTerminator c5 = false ->
  isLineTerminator c4 = false -> isLineTerminator c3 = false ->
  isLineTerminator c2 = false -> isLineTerminator c1 = false ->
  isLineTerminator c0 = false ->
  chunks [c6; c5; c4; c3; c2; c1; c0]
  = [String c6 (String c5 ""); String c4 (String c3 "");
     String c2 (String c1 ""); String c0 ""].
Proof.
  intros H6 H5 H4 H3 H2 H1 H0. cbn [chunks].
  rewrite H6, H5, H4, H3, H2, H1, H0. reflexivity.
Qed.

Lemma hostMaxOf_shifted b0 b1 b2 b3 :
  0 <= b0 <= 255 -> 0 <= b1 <= 255 -> 0 <= b2 <= 255 -> 0 <= b3 <= 255 ->
  let w := b0 * 2 ^ 24 + b1 * 2 ^ 16 + b2 * 2 ^ 8 + b3 - 1 in
  2 ^ 24 <= w < 2 ^ 28 ->
  hostMaxOf [Int b0; Int b1; Int b2; Int b3]
  = [Int (w / 2 ^ 20); Int (w / 2 ^ 12 mod 256); Int (w / 2 ^ 4 mod 256); Int (w mod 16)].
Proof.
  intros H0 H1 H2 H3 w Hw.
  change (2 ^ 24) with 16777216 in *. change (2 ^ 16) with 65536 in *.
  change (2 ^ 8) with 256 in *. change (2 ^ 28) with 268435456 in *.
  change (2 ^ 20) with 1048576. change (2 ^ 12) with 4096. change (2 ^ 4) with 16.
  unfold hostMaxOf. cbn [map String.concat].
  destruct (hex2_byte b0 H0) as [-> _]. destruct (hex2_byte b1 H1) as [-> _].
  destruct (hex2_byte b2 H2) as [-> _]. destruct (hex2_byte b3 H3) as [-> _].
  cbn [String.append]. unfold subtractFromHex.
  rewrite parseInt_8 by dlia. cbn [sub neg add lt].
  match goal with |- context [Int (?v + - (1))] => replace (v + - (1)) with w by (unfold w; dlia) end.
  destruct (Z.ltb_spec w 0) as [Hneg | _]; [lia |].
  unfold toString. destruct (Z.ltb_spec w 0) as [Hneg | _]; [lia |].
  rewrite digitsOf_7 by (change (16 ^ 6) with 16777216; change (16 ^ 7) with 268435456; lia).
  unfold padStart0. cbn [String.length Nat.sub repeat string_of_list_ascii String.append].
  unfold hexaToIpArray. cbn [list_ascii_of_string].
  rewrite chunks_7 by (apply hexDigit; dlia).
  cbn [map]. rewrite !parseInt_nibbles, parseInt_nibble by dlia.
  clearbody w.
  rewrite !nibble_pair, !Z.div_div by lia.
  cbn [Z.mul Pos.mul Pos.add].
  rewrite (Z.mod_small (w / 1048576) 256) by dlia. reflexivity.
Qed.

Lemma octets_of_shifted b0 b1 b2 b3 :
  0 <= b0 <= 255 -> 0 <= b1 <= 255 -> 0 <= b2 <= 255 -> 1 <= b3 <= 255 ->
  let w := b0 * 16777216 + b1 * 65536 + b2 * 256 + b3 - 1 in
  w / 1048576 = 16 * b0 + b1 / 16
  /\ (w / 4096) mod 256 = 16 * (b1 mod 16) + b2 / 16
  /\ (w / 16) mod 256 = 16 * (b2 mod 16) + (b3 - 1) / 16
  /\ w mod 16 = (b3 - 1) mod 16.
Proof.
  intros H0 H1 H2 H3 w.
  pose proof (Z.div_mod b1 16 ltac:(lia)) as E1. pose proof (Z.mod_pos_bound b1 16 ltac:(lia)) as M1.
  pose proof (Z.div_mod b2 16 ltac:(lia)) as E2. pose proof (Z.mod_pos_bound b2 16 ltac:(lia)) as M2.
  pose proof (Z.div_mod (b3 - 1) 16 ltac:(lia)) as E3.
  pose proof (Z.mod_pos_bound (b3 - 1) 16 ltac:(lia)) as M3.
  set (h1 := b1 / 16) in *. set (l1 := b1 mod 16) in *.
  set (h2 := b2 / 16) in *. set (l2 := b2 mod 16) in *.
  set (h3 := (b3 - 1) / 16) in *. set (l3 := (b3 - 1) mod 16) in *.
  assert (Hh1 : 0 <= h1 <= 15) by lia. assert (Hh2 : 0 <= h2 <= 15) by lia.
  assert (Hh3 : 0 <= h3 <= 15) by lia.
  assert (Ew : w = b0 * 16777216 + h1 * 1048576 + l1 * 65536 + h2 * 4096 + l2 * 256 + h3 * 16 + l3)
    by (unfold w; lia).
  clearbody w h1 l1 h2 l2 h3 l3. subst w.
  assert (Q1 : (b0 * 16777216 + h1 * 1048576 + l1 * 65536 + h2 * 4096 + l2 * 256 + h3 * 16 + l3)
               / 1048576 = 16 * b0 + h1).
  { symmetry. apply (Z.div_unique _ _ _ (l1 * 65536 + h2 * 4096 + l2 * 256 + h3 * 16 + l3)); lia. }
  assert (Q2 : (b0 * 16777216 + h1 * 1048576 + l1 * 65536 + h2 * 4096 + l2 * 256 + h3 * 16 + l3)
               / 4096 = (16 * b0 + h1) * 256 + 16 * l1 + h2).
  { symmetry. apply (Z.div_unique _ _ _ (l2 * 256 + h3 * 16 + l3)); lia. }
  assert (Q3 : (b0 * 16777216 + h1 * 1048576 + l1 * 65536 + h2 * 4096 + l2 * 256 + h3 * 16 + l3)
               / 16 = ((16 * b0 + h1) * 256 + 16 * l1 + h2) * 256 + 16 * l2 + h3).
  { symmetry. apply (Z.div_unique _ _ _ l3); lia. }
  rewrite Q1, Q2, Q3. repeat split.
  - symmetry. apply (Z.mod_unique _ _ (16 * b0 + h1)); lia.
  - symmetry. apply (Z.mod_unique _ _ ((16 * b0 + h1) * 256 + 16 * l1 + h2)); lia.
  - symmetry.
    apply (Z.mod_unique _ _ (((16 * b0 + h1) * 256 + 16 * l1 + h2) * 256 + 16 * l2 + h3)); lia.
Qed.

(** X16.  For an address of four octets and a prefix from 1 to 31: when the
    first octet of the broadcast address is from 1 to 15, [hostMax] is the
    broadcast address minus one read one hexadecimal digit too far to the
    left (10.0.255.255 gives 160.15.255.14), so its first octet is larger
    than that of the broadcast address. *)
Theorem hostMax_low_first_octet c p a0 a1 a2 a3 :
  ipOctets c = [Int a0; Int a1; Int a2; Int a3] ->
  0 <= a0 <= 255 -> 0 <= a1 <= 255 -> 0 <= a2 <= 255 -> 0 <= a3 <= 255 ->
  maskBits c = Int p -> 1 <= p <= 31 ->
  exists c' b0 b1 b2 b3,
    calculate c = Normal tt c'
    /\ broadcast c' = join "." [Int b0; Int b1; Int b2; Int b3]
    /\ (a0 <= b0 <= 255 /\ 0 <= b1 <= 255 /\ 0 <= b2 <= 255 /\ 1 <= b3 <= 255)
    /\ (1 <= b0 <= 15 ->
        hostMax c' = join "." [Int (16 * b0 + b1 / 16);
                               Int (16 * (b1 mod 16) + b2 / 16);
                               Int (16 * (b2 mod 16) + (b3 - 1) / 16);
                               Int ((b3 - 1) mod 16)]
        /\ b0 < 16 * b0 + b1 / 16).
Proof.
  intros Hoct A0 A1 A2 A3 Hp Hr.
  destruct (mask_octets (Int p)) as (m0 & m1 & m2 & m3 & (M0 & M1 & M2 & M3) & Enm & Ew).
  destruct (address_octets a0 a1 a2 a3 m0 m1 m2 m3 A0 A1 A2 A3 M0 M1 M2 M3) as [En Eb].
  pose proof (netmask_last_octet p m0 m1 m2 m3 Hr Enm) as Hlast.
  pose proof (land_byte a0 m0 M0) as L0. pose proof (land_byte a1 m1 M1) as L1.
  pose proof (land_byte a2 m2 M2) as L2. pose proof (land_byte a3 m3 M3) as L3.
  destruct (octetPair a0 m0 A0 M0) as (_ & _ & B0 & _ & U0 & _).
  destruct (octetPair a1 m1 A1 M1) as (_ & _ & _ & _ & U1 & _).
  destruct (octetPair a2 m2 A2 M2) as (_ & _ & _ & _ & U2 & _).
  destruct (octetPair a3 m3 A3 M3) as (_ & _ & _ & _ & U3 & _).
  set (b0 := Z.land a0 m0 + (255 - m0)) in *. set (b1 := Z.land a1 m1 + (255 - m1)) in *.
  set (b2 := Z.land a2 m2 + (255 - m2)) in *. set (b3 := Z.land a3 m3 + (255 - m3)) in *.
  assert (R0 : a0 <= b0 <= 255) by lia. assert (R1 : 0 <= b1 <= 255) by lia.
  assert (R2 : 0 <= b2 <= 255) by lia. assert (R3 : 1 <= b3 <= 255) by lia.
  exists (calculated (ipOctets c) (Int p) p), b0, b1, b2, b3.
  split; [apply calculate_prefix; [rewrite Hoct; discriminate | exact Hp | lia] |].
  cbn [calculated hostMax broadcast]. rewrite Ew, Enm, Hoct, Eb.
  split; [reflexivity |]. split; [repeat split; lia |].
  intros Hlow. split; [| dlia].
  rewrite hostMaxOf_shifted by lia.
  clearbody b0 b1 b2 b3. change (2 ^ 24) with 16777216. change (2 ^ 16) with 65536.
  change (2 ^ 8) with 256. change (2 ^ 20) with 1048576. change (2 ^ 12) with 4096.
  change (2 ^ 4) with 16.
  destruct (octets_of_shifted b0 b1 b2 b3 ltac:(lia) R1 R2 R3) as (-> & -> & -> & ->).
  reflexivity.
Qed.

Lemma hostMax_low_first_octet_witness :
  let c := with_maskBits (Int 16) (with_ipOctets [Int 10; Int 0; Int 0; Int 129] blank) in
  ipOctets c = [Int 10; Int 0; Int 0; Int 129]
  /\ 0 <= 10 <= 255 /\ 0 <= 0 <= 255 /\ 0 <= 0 <= 255 /\ 0 <= 129 <= 255
  /\ maskBits c = Int 16 /\ 1 <= 16 <= 31
  /\ exists c' b0 b1 b2 b3,
    calculate c = Normal tt c'
    /\ broadcast c' = join "." [Int b0; Int b1; Int b2; Int b3]
    /\ (10 <= b0 <= 255 /\ 0 <= b1 <= 255 /\ 0 <= b2 <= 255 /\ 1 <= b3 <= 255)
    /\ (1 <= b0 <= 15 ->
        hostMax c' = join "." [Int (16 * b0 + b1 / 16);
                               Int (16 * (b1 mod 16) + b2 / 16);
                               Int (16 * (b2 mod 16) + (b3 - 1) / 16);
                               Int ((b3 - 1) mod 16)]
        /\ b0 < 16 * b0 + b1 / 16).
Proof.
  intros c.
  assert (H0 : ipOctets c = [Int 10; Int 0; Int 0; Int 129]) by reflexivity.
  assert (A0 : 0 <= 10 <= 255) by lia. assert (A1 : 0 <= 0 <= 255) by lia.
  assert (A3 : 0 <= 129 <= 255) by lia.
  assert (H2 : maskBits c = Int 16) by reflexivity.
  assert (H3 : 1 <= 16 <= 31) by lia.
  split; [exact H0 |]. split; [exact A0 |]. split; [exact A1 |]. split; [exact A1 |].
  split; [exact A3 |]. split; [exact H2 |]. split; [exact H3 |].
  exact (hostMax_low_first_octet c 16 10 0 0 129 H0 A0 A1 A1 A3 H2 H3).
Defined.

(** *** The converters *)

Lemma binaryOk_all : forallb binaryOk bytes = true.
Proof. vm_compute. reflexivity. Qed.

(** X19.  [convertToBinary] of four octets in dotted decimal returns, on any
    instance and without changing it, the four octets as eight binary
    digits each, most significant bit first, joined by dots: 35 characters. *)
Theorem convertToBinary_octets c a b d e :
  0 <= a <= 255 -> 0 <= b <= 255 -> 0 <= d <= 255 -> 0 <= e <= 255 ->
  convertToBinary (join "." [Int a; Int b; Int d; Int e]) c
  = Normal (String.concat "." [binary8 a; binary8 b; binary8 d; binary8 e]) c
  /\ String.length (String.concat "." [binary8 a; binary8 b; binary8 d; binary8 e]) = 35%nat.
Proof.
  intros Ha Hb Hd He. split; [| reflexivity].
  unfold convertToBinary, bind. rewrite validateIp_join by assumption.
  unfold ret. cbn [map].
  pose proof (bytes_all _ binaryOk_all a Ha) as Ea. pose proof (bytes_all _ binaryOk_all b Hb) as Eb.
  pose proof (bytes_all _ binaryOk_all d Hd) as Ed. pose proof (bytes_all _ binaryOk_all e He) as Ee.
  apply String.eqb_eq in Ea, Eb, Ed, Ee. rewrite Ea, Eb, Ed, Ee. reflexivity.
Qed.

Lemma convertToBinary_octets_witness :
  0 <= 192 <= 255 /\ 0 <= 168 <= 255 /\ 0 <= 1 <= 255 /\ 0 <= 1 <= 255
  /\ (convertToBinary (join "." [Int 192; Int 168; Int 1; Int 1]) sample
      = Normal (String.concat "." [binary8 192; binary8 168; binary8 1; binary8 1]) sample
      /\ String.length (String.concat "." [binary8 192; binary8 168; binary8 1; binary8 1]) = 35%nat).
Proof.
  assert (A0 : 0 <= 192 <= 255) by lia. assert (A1 : 0 <= 168 <= 255) by lia.
  assert (A2 : 0 <= 1 <= 255) by lia.
  split; [exact A0 |]. split; [exact A1 |]. split; [exact A2 |]. split; [exact A2 |].
  exact (convertToBinary_octets sample 192 168 1 1 A0 A1 A2 A2).
Defined.

(** X18.  [convertToHexa] of four octets in dotted decimal returns eight
    characters, and [hexaToIpArray] reads the four octets back from them. *)
Theorem convertToHexa_round_trip c a b d e :
  0 <= a <= 255 -> 0 <= b <= 255 -> 0 <= d <= 255 -> 0 <= e <= 255 ->
  exists h, convertToHexa (join "." [Int a; Int b; Int d; Int e]) c = Normal h c
            /\ String.length h = 8%nat
            /\ hexaToIpArray h = [Int a; Int b; Int d; Int e].
Proof.
  intros Ha Hb Hd He. eexists. split.
  - unfold convertToHexa, bind. rewrite validateIp_join by assumption.
    unfold ret. cbn [map String.concat]. fold (hex2 (Int a)) (hex2 (Int b)) (hex2 (Int d)) (hex2 (Int e)).
    destruct (hex2_byte a Ha) as [-> _]. destruct (hex2_byte b Hb) as [-> _].
    destruct (hex2_byte d Hd) as [-> _]. destruct (hex2_byte e He) as [-> _].
    cbn [String.append]. reflexivity.
  - split; [reflexivity |].
    unfold hexaToIpArray. cbn [list_ascii_of_string].
    rewrite chunks_8 by (apply hexDigit; dlia).
    cbn [map]. rewrite !parseInt_nibbles by dlia.
    repeat f_equal; dlia.
Qed.

Lemma convertToHexa_round_trip_witness :
  0 <= 192 <= 255 /\ 0 <= 168 <= 255 /\ 0 <= 1 <= 255 /\ 0 <= 1 <= 255
  /\ exists h, convertToHexa (join "." [Int 192; Int 168; Int 1; Int 1]) sample = Normal h sample
            /\ String.length h = 8%nat
            /\ hexaToIpArray h = [Int 192; Int 168; Int 1; Int 1].
Proof.
  assert (A0 : 0 <= 192 <= 255) by lia. assert (A1 : 0 <= 168 <= 255) by lia.
  assert (A2 : 0 <= 1 <= 255) by lia.
  split; [exact A0 |]. split; [exact A1 |]. split; [exact A2 |]. split; [exact A2 |].
  exact (convertToHexa_round_trip sample 192 168 1 1 A0 A1 A2 A2).
Defined.

Lemma validateIp_any_instance s msg c :
  validateIp s msg c =
  match validateIp s msg blank with
  | Normal octs _ => Normal octs c
  | Throw e _ => Throw e c
  | Unmodelled => Unmodelled
  end.
Proof.
  unfold validateIp, bind, value, throw, ret.
  destruct (ipToOctetArray s) as [octs |]; [| reflexivity].
  destruct (negb _); [reflexivity |]. destruct (existsb _ octs); reflexivity.
Qed.

(** X20.  The converters and [setIp] accept the same strings; the converters
    leave the instance alone and give the same result on every instance. *)
Theorem converters_are_pure s c :
  match setIp s c with
  | Normal _ _ =>
      exists h b, forall this,
        convertToHexa s this = Normal h this /\ convertToBinary s this = Normal b this
  | Throw _ _ =>
      forall this,
        convertToHexa s this = Throw invalidIP this
        /\ convertToBinary s this = Throw invalidIP this
        /\ setIp s this = Throw invalidIP this
  | Unmodelled =>
      forall this,
        convertToHexa s this = Unmodelled /\ convertToBinary s this = Unmodelled
  end.
Proof.
  unfold setIp, convertToHexa, convertToBinary, bind.
  rewrite (validateIp_any_instance s invalidIP c).
  pose proof (validateIp_inv s invalidIP blank) as Hv.
  destruct (validateIp s invalidIP blank) as [octs c0 | e c0 |] eqn:E.
  - cbn. do 2 eexists. intros this. rewrite (validateIp_any_instance s invalidIP this), E.
    split; reflexivity.
  - destruct Hv as [_ ->]. intros this.
    rewrite (validateIp_any_instance s invalidIP this), E. repeat split.
  - intros this. rewrite (validateIp_any_instance s invalidIP this), E. split; reflexivity.
Qed.




(** *** The output fields as addresses *)

Lemma getNetwork_bytes ip mask :
  exists n0 n1 n2 n3,
    getNetwork ip (getNetworkMask mask) = [Int n0; Int n1; Int n2; Int n3]
    /\ 0 <= n0 <= 255 /\ 0 <= n1 <= 255 /\ 0 <= n2 <= 255 /\ 0 <= n3 <= 255.
Proof.
  destruct (mask_octets mask) as (m0 & m1 & m2 & m3 & (M0 & M1 & M2 & M3) & -> & _).
  unfold getNetwork. cbn [at_ nth].
  destruct (band_byte (nth 0 ip NaN) (Int m0)) as (n0 & E0 & R0); [exists m0; split; [reflexivity | lia] |].
  destruct (band_byte (nth 1 ip NaN) (Int m1)) as (n1 & E1 & R1); [exists m1; split; [reflexivity | lia] |].
  destruct (band_byte (nth 2 ip NaN) (Int m2)) as (n2 & E2 & R2); [exists m2; split; [reflexivity | lia] |].
  destruct (band_byte (nth 3 ip NaN) (Int m3)) as (n3 & E3 & R3); [exists m3; split; [reflexivity | lia] |].
  exists n0, n1, n2, n3. fold (at_ ip 0) (at_ ip 1) (at_ ip 2) (at_ ip 3) in *.
  rewrite E0, E1, E2, E3. repeat split; lia.
Qed.

Lemma join_accepted o0 o1 o2 o3 :
  0 <= o0 <= 255 -> 0 <= o1 <= 255 -> 0 <= o2 <= 255 -> 0 <= o3 <= 255 ->
  accepted (join "." [Int o0; Int o1; Int o2; Int o3]).
Proof.
  intros H0 H1 H2 H3. exists o0, o1, o2, o3. split; [repeat split; lia |].
  split; [reflexivity |]. intros this. apply setIp_join; assumption.
Qed.

(** X22.  The network address, netmask, broadcast address and wildcard that
    [calculate] stores are four octets from 0 to 255 in dotted decimal, for
    any stored address; [setIp] accepts each of them on any instance and
    stores those octets. *)
Theorem outputs_are_addresses c p :
  ipOctets c <> [] -> maskBits c = Int p -> 1 <= p <= 32 ->
  exists c', calculate c = Normal tt c'
             /\ accepted (network c') /\ accepted (netmask c')
             /\ accepted (broadcast c') /\ accepted (wildcard c').
Proof.
  intros Hne Hp Hr. exists (calculated (ipOctets c) (Int p) p).
  split; [apply calculate_prefix; assumption |].
  cbn [calculated network netmask broadcast wildcard].
  destruct (getNetwork_bytes (ipOctets c) (Int p)) as (n0 & n1 & n2 & n3 & En & N0 & N1 & N2 & N3).
  destruct (getBroadcast_bytes (ipOctets c) (Int p)) as (b0 & b1 & b2 & b3 & Eb & B0 & B1 & B2 & B3).
  rewrite Eb, En.
  destruct (mask_octets (Int p)) as (m0 & m1 & m2 & m3 & (M0 & M1 & M2 & M3) & -> & ->).
  repeat split; apply join_accepted; lia.
Qed.

Lemma outputs_are_addresses_witness :
  ipOctets sample <> [] /\ maskBits sample = Int 24 /\ 1 <= 24 <= 32
  /\ exists c', calculate sample = Normal tt c'
             /\ accepted (network c') /\ accepted (netmask c')
             /\ accepted (broadcast c') /\ accepted (wildcard c').
Proof.
  assert (H1 : ipOctets sample <> []) by discriminate.
  assert (H2 : maskBits sample = Int 24) by reflexivity.
  assert (H3 : 1 <= 24 <= 32) by lia.
  split; [exact H1 |]. split; [exact H2 |]. split; [exact H3 |].
  exact (outputs_are_addresses sample 24 H1 H2 H3).
Defined.

(** X23.  With four NaN octets stored (what [setIp('a.b.c.d')] leaves) and a
    prefix from 1 to 32, [calculate] returns: [ip] prints the NaN, the
    bitwise operations read them as 0, so the network address is 0.0.0.0,
    the class is A and the broadcast address equals the wildcard. *)
Theorem calculate_NaN_octets c p :
  ipOctets c = [NaN; NaN; NaN; NaN] -> maskBits c = Int p -> 1 <= p <= 32 ->
  exists c', calculate c = Normal tt c'
             /\ ip c' = "NaN.NaN.NaN.NaN"
             /\ network c' = "0.0.0.0"
             /\ ipv4Class c' = "A"
             /\ hostMin c' = "0.0.0.1"
             /\ broadcast c' = wildcard c'.
Proof.
  intros Hoct Hp Hr. exists (calculated (ipOctets c) (Int p) p).
  split; [apply calculate_prefix; [rewrite Hoct; discriminate | exact Hp | exact Hr] |].
  cbn [calculated ip network ipv4Class hostMin broadcast wildcard]. rewrite Hoct.
  destruct (mask_octets (Int p)) as (m0 & m1 & m2 & m3 & (M0 & M1 & M2 & M3) & -> & ->).
  assert (Hn : getNetwork [NaN; NaN; NaN; NaN] [Int m0; Int m1; Int m2; Int m3]
               = [Int 0; Int 0; Int 0; Int 0]).
  { unfold getNetwork, band. cbn [at_ nth ToInt32]. rewrite !Z.land_0_l. reflexivity. }
  rewrite Hn. repeat split.
  unfold getBroadcast. cbn [at_ nth]. rewrite !bor_Int by lia.
  rewrite !Z.lor_0_l. reflexivity.
Qed.

Lemma calculate_NaN_octets_witness :
  let c := with_ipOctets [NaN; NaN; NaN; NaN] sample in
  ipOctets c = [NaN; NaN; NaN; NaN] /\ maskBits c = Int 24 /\ 1 <= 24 <= 32
  /\ exists c', calculate c = Normal tt c'
             /\ ip c' = "NaN.NaN.NaN.NaN"
             /\ network c' = "0.0.0.0"
             /\ ipv4Class c' = "A"
             /\ hostMin c' = "0.0.0.1"
             /\ broadcast c' = wildcard c'.
Proof.
  intros c.
  assert (H1 : ipOctets c = [NaN; NaN; NaN; NaN]) by reflexivity.
  assert (H2 : maskBits c = Int 24) by reflexivity.
  assert (H3 : 1 <= 24 <= 32) by lia.
  split; [exact H1 |]. split; [exact H2 |]. split; [exact H3 |].
  exact (calculate_NaN_octets c 24 H1 H2 H3).
Defined.

Lemma setIp_rejects_witness :
  ipToOctetArray "192.168.1.300" = Some [Int 192; Int 168; Int 1; Int 300]
  /\ (List.length [Int 192; Int 168; Int 1; Int 300] <> 4%nat
      \/ Exists (fun o => lt o (Int 0) = true \/ gt o (Int 255) = true)
           [Int 192; Int 168; Int 1; Int 300])
  /\ setIp "192.168.1.300" sample = Throw invalidIP sample.
Proof.
  assert (H1 : ipToOctetArray "192.168.1.300" = Some [Int 192; Int 168; Int 1; Int 300])
    by reflexivity.
  assert (H2 : List.length [Int 192; Int 168; Int 1; Int 300] <> 4%nat
               \/ Exists (fun o => lt o (Int 0) = true \/ gt o (Int 255) = true)
                    [Int 192; Int 168; Int 1; Int 300]).
  { right. do 3 apply Exists_cons_tl. apply Exists_cons_hd. right. reflexivity. }
  split; [exact H1 |]. split; [exact H2 |].
  exact (setIp_rejects "192.168.1.300" sample _ H1 H2).
Defined.

(** *** The command-line examples *)

Lemma join_not_missing a b d e :
  missing (Some (join "." [Int a; Int b; Int d; Int e])) = false.
Proof.
  unfold missing, join. cbn [map String.concat].
  destruct (toString 10 (Int a)); reflexivity.
Qed.

Lemma digits_not_missing z : 0 <= z -> missing (Some (toString 10 (Int z))) = false.
Proof.
  intros Hz. destruct (parseInt_toString z Hz) as [Hd _].
  unfold missing. destruct (toString 10 (Int z)); [discriminate Hd | reflexivity].
Qed.

Lemma setMask_digits c z :
  0 <= z ->
  setMask (MaskString (toString 10 (Int z))) c
  = if (0 <=? z) && (z <=? 32) then Normal tt (with_maskBits (Int z) c)
    else Throw invalidMask c.
Proof.
  intros Hz. destruct (parseInt_toString z Hz) as [Hd Hp].
  unfold setMask. rewrite Hd, Hp. unfold bind at 1, ret. unfold bind.
  rewrite validateMask_cases. destruct ((0 <=? z) && (z <=? 32)); reflexivity.
Qed.

Lemma setMask_dotted_kept c p a b d e :
  maskBits c = Int p -> 1 <= p <= 32 ->
  0 <= a <= 255 -> 0 <= b <= 255 -> 0 <= d <= 255 -> 0 <= e <= 255 ->
  setMask (MaskString (join "." [Int a; Int b; Int d; Int e])) c = Normal tt c.
Proof.
  intros Hp Hr Ha Hb Hd He. unfold setMask. rewrite isDigitString_join.
  unfold bind at 1. unfold bind at 1. rewrite validateIp_join by assumption.
  rewrite getMaskBits_cached.
  - unfold bind. rewrite validateMask_cases, Hp.
    destruct (Z.leb_spec 0 p); [| lia]. destruct (Z.leb_spec p 32); [| lia].
    cbn [andb]. unfold write. rewrite <- Hp, with_maskBits_same. reflexivity.
  - rewrite Hp. cbn. destruct (Z.eqb_spec p 0); [lia | reflexivity].
Qed.

(** X24.  The second example, run with an address of four octets and any
    dotted mask of four octets, exits with status 0 and logs the instance
    computed with the prefix 32: the factory has stored the default 32
    before [setMask] runs, so the mask on the command line is not read. *)
Theorem cliExample2_ignores_dotted_mask a0 a1 a2 a3 m0 m1 m2 m3 :
  0 <= a0 <= 255 -> 0 <= a1 <= 255 -> 0 <= a2 <= 255 -> 0 <= a3 <= 255 ->
  0 <= m0 <= 255 -> 0 <= m1 <= 255 -> 0 <= m2 <= 255 -> 0 <= m3 <= 255 ->
  let calculator := calculated [Int a0; Int a1; Int a2; Int a3] (Int 32) 32 in
  cliExample2 [join "." [Int a0; Int a1; Int a2; Int a3];
               join "." [Int m0; Int m1; Int m2; Int m3]]
  = Logged 0 (Some calculator)
  /\ mask calculator = "32"
  /\ netmask calculator = "255.255.255.255"
  /\ network calculator = join "." [Int a0; Int a1; Int a2; Int a3].
Proof.
  intros A0 A1 A2 A3 M0 M1 M2 M3 calculator. split.
  - unfold cliExample2. cbn [nth_error]. rewrite !join_not_missing. cbn [orb].
    change (new None) with (Normal tt defaultInstance).
    unfold bind at 1. rewrite setIp_join by assumption.
    unfold bind at 1.
    rewrite (setMask_dotted_kept _ 32) by (reflexivity || lia || assumption).
    rewrite (calculate_prefix _ 32); [reflexivity | discriminate | reflexivity | lia].
  - unfold calculator. cbn [calculated mask netmask network]. repeat split.
    change (getNetworkMask (Int 32)) with [Int 255; Int 255; Int 255; Int 255].
    unfold getNetwork. cbn [at_ nth]. rewrite !band_255 by assumption. reflexivity.
Qed.

Lemma cliExample2_ignores_dotted_mask_witness :
  0 <= 10 <= 255 /\ 0 <= 1 <= 255 /\ 0 <= 2 <= 255 /\ 0 <= 3 <= 255
  /\ 0 <= 255 <= 255 /\ 0 <= 0 <= 255
  /\ cliExample2 ["10.1.2.3"; "255.0.0.0"]
     = Logged 0 (Some (calculated [Int 10; Int 1; Int 2; Int 3] (Int 32) 32))
  /\ mask (calculated [Int 10; Int 1; Int 2; Int 3] (Int 32) 32) = "32"
  /\ netmask (calculated [Int 10; Int 1; Int 2; Int 3] (Int 32) 32) = "255.255.255.255"
  /\ network (calculated [Int 10; Int 1; Int 2; Int 3] (Int 32) 32) = "10.1.2.3".
Proof.
  assert (H10 : 0 <= 10 <= 255) by lia.
  assert (H1 : 0 <= 1 <= 255) by lia.
  assert (H2 : 0 <= 2 <= 255) by lia.
  assert (H3 : 0 <= 3 <= 255) by lia.
  assert (H255 : 0 <= 255 <= 255) by lia.
  assert (H0 : 0 <= 0 <= 255) by lia.
  split; [exact H10 |]. split; [exact H1 |]. split; [exact H2 |]. split; [exact H3 |].
  split; [exact H255 |]. split; [exact H0 |].
  exact (cliExample2_ignores_dotted_mask 10 1 2 3 255 0 0 0 H10 H1 H2 H3 H255 H0 H0 H0).
Defined.

(** X25.  The first example, run with an address of four octets and a dotted
    mask of four octets, counts the leading one-bits of the mask's octets:
    when the count is 0 it exits with status 1 and prints nothing to
    standard output; otherwise it exits with status 0 after printing the
    ten fields computed with that count as the prefix. *)
Theorem cliExample1_counts_dotted_mask a0 a1 a2 a3 m0 m1 m2 m3 :
  0 <= a0 <= 255 -> 0 <= a1 <= 255 -> 0 <= a2 <= 255 -> 0 <= a3 <= 255 ->
  0 <= m0 <= 255 -> 0 <= m1 <= 255 -> 0 <= m2 <= 255 -> 0 <= m3 <= 255 ->
  let prefix := specPrefix [m0; m1; m2; m3] in
  cliExample1 [join "." [Int a0; Int a1; Int a2; Int a3];
               join "." [Int m0; Int m1; Int m2; Int m3]]
  = if prefix =? 0 then Exit 1 []
    else Exit 0 (fieldLines (calculated [Int a0; Int a1; Int a2; Int a3] (Int prefix) prefix)).
Proof.
  intros A0 A1 A2 A3 M0 M1 M2 M3 prefix.
  pose proof (specPrefix_range m0 m1 m2 m3) as Hq. fold prefix in Hq.
  unfold cliExample1. cbn [nth_error]. rewrite !join_not_missing. cbn [orb option_map].
  unfold new. unfold bind. rewrite setIp_join by assumption.
  rewrite (setMask_dotted_fresh _ _ m0 m1 m2 m3); try assumption;
    [| reflexivity | apply isDigitString_join | apply ipToOctetArray_join; assumption].
  fold prefix. destruct (Z.eqb_spec prefix 0) as [E | E].
  - rewrite calculate_throws; [reflexivity |]. right. rewrite E. reflexivity.
  - rewrite (calculate_prefix _ prefix); [reflexivity | discriminate | reflexivity | lia].
Qed.

Lemma cliExample1_counts_dotted_mask_witness :
  0 <= 10 <= 255 /\ 0 <= 1 <= 255 /\ 0 <= 2 <= 255 /\ 0 <= 3 <= 255
  /\ 0 <= 255 <= 255 /\ 0 <= 0 <= 255
  /\ cliExample1 ["10.1.2.3"; "255.0.0.0"]
     = Exit 0 (fieldLines (calculated [Int 10; Int 1; Int 2; Int 3] (Int 8) 8)).
Proof.
  assert (H10 : 0 <= 10 <= 255) by lia.
  assert (H1 : 0 <= 1 <= 255) by lia.
  assert (H2 : 0 <= 2 <= 255) by lia.
  assert (H3 : 0 <= 3 <= 255) by lia.
  assert (H255 : 0 <= 255 <= 255) by lia.
  assert (H0 : 0 <= 0 <= 255) by lia.
  split; [exact H10 |]. split; [exact H1 |]. split; [exact H2 |]. split; [exact H3 |].
  split; [exact H255 |]. split; [exact H0 |].
  exact (cliExample1_counts_dotted_mask 10 1 2 3 255 0 0 0 H10 H1 H2 H3 H255 H0 H0 H0).
Defined.

(** X26.  Run with an address of four octets and the decimal digits of a
    prefix, the two examples end alike: with status 0 and the fields computed
    for that prefix when it is from 1 to 32, with status 1 and nothing on
    standard output when it is 0 or above 32. *)
Theorem cli_examples_decimal_prefix a0 a1 a2 a3 z :
  0 <= a0 <= 255 -> 0 <= a1 <= 255 -> 0 <= a2 <= 255 -> 0 <= a3 <= 255 -> 0 <= z ->
  let args := [join "." [Int a0; Int a1; Int a2; Int a3]; toString 10 (Int z)] in
  let calculator := calculated [Int a0; Int a1; Int a2; Int a3] (Int z) z in
  cliExample1 args
  = (if (1 <=? z) && (z <=? 32) then Exit 0 (fieldLines calculator) else Exit 1 [])
  /\ cliExample2 args
     = (if (1 <=? z) && (z <=? 32) then Logged 0 (Some calculator) else Logged 1 None).
Proof.
  intros A0 A1 A2 A3 Hz args calculator.
  unfold cliExample1, cliExample2, args. cbn [nth_error].
  rewrite join_not_missing, digits_not_missing by exact Hz. cbn [orb option_map].
  change (new None) with (Normal tt defaultInstance).
  unfold new. unfold bind. rewrite !setIp_join by assumption.
  rewrite !setMask_digits by exact Hz.
  destruct (Z.leb_spec 0 z) as [_ | ?]; [| lia]. cbn [andb].
  destruct (Z.leb_spec z 32) as [Hle | Hgt].
  - destruct (Z.leb_spec 1 z) as [H1 | H0]; cbn [andb].
    + rewrite !(calculate_prefix _ z); try reflexivity; try discriminate; try lia.
      split; reflexivity.
    + assert (z = 0) by lia. subst z.
      rewrite !calculate_throws by (right; reflexivity). split; reflexivity.
  - rewrite andb_false_r. split; reflexivity.
Qed.

Lemma cli_examples_decimal_prefix_witness :
  0 <= 192 <= 255 /\ 0 <= 168 <= 255 /\ 0 <= 1 <= 255 /\ 0 <= 24
  /\ cliExample1 ["192.168.1.1"; "24"]
     = Exit 0 (fieldLines (calculated [Int 192; Int 168; Int 1; Int 1] (Int 24) 24))
  /\ cliExample2 ["192.168.1.1"; "24"]
     = Logged 0 (Some (calculated [Int 192; Int 168; Int 1; Int 1] (Int 24) 24)).
Proof.
  assert (H192 : 0 <= 192 <= 255) by lia.
  assert (H168 : 0 <= 168 <= 255) by lia.
  assert (H1 : 0 <= 1 <= 255) by lia.
  assert (H24 : 0 <= 24) by lia.
  split; [exact H192 |]. split; [exact H168 |]. split; [exact H1 |]. split; [exact H24 |].
  exact (cli_examples_decimal_prefix 192 168 1 1 24 H192 H168 H1 H1 H24).
Defined.
